(** * x402 payment SDK: the payment gatekeeper

    A shallow embedding of
    [packages/x402-payment-sdk/src/core/payment-processor.ts] (the
    [PaymentProcessor] class) and of
    [packages/x402-payment-sdk/src/http/payment-plugin.ts] (the HTTP
    adapter [createPaymentPlugin] / [ensurePayment]), followed by the
    properties of the requirement builder, the proof verifier and the
    settlement engine.

    Conventions.
    - A JavaScript value that may be [undefined] is an [option].
    - JavaScript numbers that the code counts or compares with
      ([status], [maxRetries], [retryDelay], the attempt counter) are
      integers, in [Z].
    - Code that awaits the facilitator, sleeps or calls a user callback
      runs in the monad [M]: it threads a [World] whose [trace] records
      these effects in program order, and it may throw.
    - The functions imported from the [x402] and [viem] packages and the
      JavaScript built-ins are not part of this repository; they are the
      fields of [Externals]. *)

From Stdlib Require Import ZArith String Ascii List Lia Bool DecimalString.
From stdpp Require Import base option list gmap strings.
From Equations Require Import Equations.

Set Warnings "-register-all".
Local Open Scope Z_scope.

(** ** JavaScript values *)

(** The shape of the data that [JSON.stringify] receives. *)
Inductive js_value :=
| JUndefined
| JNull
| JBool (b : bool)
| JNum (n : Z)
| JStr (s : string)
| JArr (l : list js_value)
| JObj (fields : list (string * js_value)).

(** What a [throw] carries: an [Error] object with its message, or any
    other value. *)
Inductive thrown :=
| ErrorObj (message : string)
| NonError (v : js_value).

(** [error instanceof Error ? error.message : fallback] *)
Definition error_message_or (e : thrown) (fallback : string) : string :=
  match e with
  | ErrorObj m => m
  | NonError _ => fallback
  end.

(** Completion of a call: it returns or it throws. *)
Inductive js_result (A : Type) :=
| Returns (a : A)
| Throws (e : thrown).
Arguments Returns {A} a.
Arguments Throws {A} e.

(** [a ?? d] *)
Definition nullish {A} (a : option A) (d : A) : A :=
  match a with
  | Some v => v
  | None => d
  end.

(** [a || d] on an optional string: [undefined] and the empty string are
    both falsy. *)
Definition or_string (a : option string) (d : string) : string :=
  match a with
  | Some EmptyString => d
  | Some s => s
  | None => d
  end.

(** [!s] on an optional string. *)
Definition falsy_string (a : option string) : bool :=
  match a with
  | Some EmptyString => true
  | Some _ => false
  | None => true
  end.

Definition ascii_upper (c : ascii) : ascii :=
  let n := nat_of_ascii c in
  if (Nat.leb 97 n && Nat.leb n 122)%bool then ascii_of_nat (n - 32) else c.

Definition ascii_lower (c : ascii) : ascii :=
  let n := nat_of_ascii c in
  if (Nat.leb 65 n && Nat.leb n 90)%bool then ascii_of_nat (n + 32) else c.

Fixpoint string_map (f : ascii -> ascii) (s : string) : string :=
  match s with
  | EmptyString => EmptyString
  | String c r => String (f c) (string_map f r)
  end.

(** [s.toUpperCase()] *)
Definition toUpperCase : string -> string := string_map ascii_upper.
Definition toLowerCase : string -> string := string_map ascii_lower.

(** Object spread [{...target, ...source}]: a key already present keeps its
    position and takes the new value, a new key is appended. *)
Fixpoint obj_set (k : string) (v : js_value) (o : list (string * js_value))
  : list (string * js_value) :=
  match o with
  | [] => [(k, v)]
  | (k', v') :: r =>
      if String.eqb k k' then (k, v) :: r else (k', v') :: obj_set k v r
  end.

Definition obj_spread (target source : list (string * js_value))
  : list (string * js_value) :=
  fold_left (fun acc kv => obj_set (fst kv) (snd kv) acc) source target.

Definition opt_str (o : option string) : js_value :=
  match o with
  | Some s => JStr s
  | None => JUndefined
  end.

Definition opt_val (o : option js_value) : js_value := nullish o JUndefined.

(** ** HTTP requests and responses *)

(** [Headers] is a map keyed by the lower-cased header name. *)
Definition headers_set (name value : string) (h : gmap string string)
  : gmap string string :=
  <[toLowerCase name := value]> h.

Definition headers_get (name : string) (h : gmap string string)
  : option string :=
  h !! toLowerCase name.

Record Request := {
  req_url : string;
  req_method : string;
  req_headers : gmap string string
}.

Record Response := {
  status : Z;
  headers : gmap string string;
  body : string
}.

(** [response.headers.set(name, value)]: the response object is updated in
    place; the updated record stands for the same object afterwards. *)
Definition response_set_header (name value : string) (r : Response) : Response :=
  {| status := status r;
     headers := headers_set name value (headers r);
     body := body r |}.

(** ** The data model ([x402/types] and [src/types.ts]) *)

Record PaymentPayload := {
  x402Version : Z;
  pp_scheme : string;
  pp_network : string;
  pp_payload : js_value
}.

Record OutputSchema := {
  os_input : list (string * js_value);
  os_output : option js_value
}.

Record PaymentRequirements := {
  scheme : string;
  network : string;
  maxAmountRequired : string;
  resource : string;
  description : string;
  mimeType : string;
  payTo : string;
  maxTimeoutSeconds : Z;
  asset : string;
  outputSchema : OutputSchema;
  extra : option js_value
}.

(** [price: string | number]; the code hands it on unread. *)
Inductive Price :=
| PriceString (s : string)
| PriceNumber (n : js_value).

Record Asset := {
  asset_address : string;
  asset_decimals : Z;
  asset_eip712 : option js_value
}.

Record AtomicAmount := {
  aa_maxAmountRequired : string;
  aa_asset : Asset
}.

Record ErrorMessages := {
  em_paymentRequired : option string;
  em_verificationFailed : option string;
  em_settlementFailed : option string
}.

Record PaymentMiddlewareConfig := {
  cfg_description : option string;
  cfg_mimeType : option string;
  cfg_maxTimeoutSeconds : option Z;
  cfg_discoverable : option bool;
  cfg_inputSchema : option (list (string * js_value));
  cfg_outputSchema : option js_value;
  cfg_errorMessages : option ErrorMessages
}.

(** [{}] *)
Definition empty_config : PaymentMiddlewareConfig :=
  {| cfg_description := None; cfg_mimeType := None;
     cfg_maxTimeoutSeconds := None; cfg_discoverable := None;
     cfg_inputSchema := None; cfg_outputSchema := None;
     cfg_errorMessages := None |}.

Definition empty_messages : ErrorMessages :=
  {| em_paymentRequired := None; em_verificationFailed := None;
     em_settlementFailed := None |}.

Record PaymentServerConfig := {
  recipient : string;
  server_network : string
}.

Record SettlementResult := {
  success : bool;
  transaction : option string;
  sr_network : option string;
  payer : option string;
  sr_error : option string
}.

Record PaymentVerificationResult := {
  isValid : bool;
  invalidReason : option string;
  vr_payer : option string
}.

Record PaymentContext := {
  payment : PaymentPayload;
  requirements : PaymentRequirements;
  verification : PaymentVerificationResult
}.

Record PaymentError := {
  code : string;
  message : string;
  details : option (list (string * js_value))
}.

Record PaymentFailure := {
  pf_error : PaymentError;
  pf_requirements : option (list PaymentRequirements)
}.

(** [PaymentResult = PaymentSuccess | PaymentFailure], told apart by
    [success]. *)
Inductive PaymentResult :=
| PaymentSuccess (context : PaymentContext)
| PaymentFailed (failure : PaymentFailure).

(** What a user callback does when called. *)
Inductive callback_result :=
| CbReturns
| CbThrows (e : thrown).

Record AsyncSettlementOptions := {
  enabled : bool;
  maxRetries : option Z;
  retryDelay : option Z;
  onSettlementSuccess : option (SettlementResult -> callback_result);
  onSettlementError : option (thrown -> callback_result)
}.

Record PaymentProcessorOptions := {
  asyncSettlement : option AsyncSettlementOptions
}.

(** [asyncSettlement?.enabled] as a condition. *)
Definition async_enabled (o : option AsyncSettlementOptions) : bool :=
  match o with
  | Some a => enabled a
  | None => false
  end.

(** ** External capabilities *)

(** The imports of the two source files and the built-ins they call. *)
Record Externals := {
  (* x402/shared *)
  processPriceToAtomicAmount : Price -> string -> js_result (string + AtomicAmount);
  findMatchingPaymentRequirements :
    list PaymentRequirements -> PaymentPayload -> option PaymentRequirements;
  safeBase64Encode : string -> string;
  (* x402/types *)
  SupportedEVMNetworks : list string;
  (* viem *)
  getAddress : string -> js_result string;
  (* x402/schemes: exact.evm.decodePayment *)
  decodePayment : string -> js_result PaymentPayload;
  (* built-in *)
  JSON_stringify : js_value -> string
}.

(** The facilitator's answers ([x402/verify], [useFacilitator]); the answer
    of [verify] has the shape of [PaymentVerificationResult]. *)
Record SettleResponse := {
  s_success : bool;
  s_transaction : option string;
  s_network : option string;
  s_payer : option string
}.

(** The facilitator is a remote service: what a call answers may depend on
    how many calls of that capability came before it. *)
Record Facilitator := {
  verify : nat -> PaymentPayload -> PaymentRequirements
           -> js_result PaymentVerificationResult;
  settle : nat -> PaymentPayload -> PaymentRequirements
           -> js_result SettleResponse
}.

(** ** Effects *)

Inductive Event :=
| EvVerify (p : PaymentPayload) (r : PaymentRequirements)
| EvSettle (p : PaymentPayload) (r : PaymentRequirements)
| EvSleep (ms : Z)
| EvSettlementSuccess (r : SettlementResult)
| EvSettlementError (e : thrown).

Definition is_verify (e : Event) : bool :=
  match e with EvVerify _ _ => true | _ => false end.
Definition is_settle (e : Event) : bool :=
  match e with EvSettle _ _ => true | _ => false end.
Definition is_sleep (e : Event) : bool :=
  match e with EvSleep _ => true | _ => false end.
Definition is_success_callback (e : Event) : bool :=
  match e with EvSettlementSuccess _ => true | _ => false end.
Definition is_error_callback (e : Event) : bool :=
  match e with EvSettlementError _ => true | _ => false end.

Definition count (f : Event -> bool) (t : list Event) : nat :=
  length (filter (fun e => f e = true) t).

(** The world is the record of the effects so far, oldest first. *)
Record World := {
  trace : list Event
}.

Definition emit (e : Event) (w : World) : World :=
  {| trace := trace w ++ [e] |}.

(** An effectful computation: from a world to a completion and the world
    after it. *)
Definition M (A : Type) : Type := World -> js_result A * World.

Definition ret {A} (a : A) : M A := fun w => (Returns a, w).

Definition throw {A} (e : thrown) : M A := fun w => (Throws e, w).

Definition bind {A B} (m : M A) (k : A -> M B) : M B :=
  fun w =>
    match m w with
    | (Returns a, w') => k a w'
    | (Throws e, w') => (Throws e, w')
    end.

(** [try { m } catch (e) { h e }] *)
Definition try_catch {A} (m : M A) (h : thrown -> M A) : M A :=
  fun w =>
    match m w with
    | (Returns a, w') => (Returns a, w')
    | (Throws e, w') => h e w'
    end.

Definition tell (e : Event) : M unit := fun w => (Returns tt, emit e w).

#[global] Instance M_ret : MRet M := @ret.
#[global] Instance M_bind : MBind M := fun A B k m => bind m k.

(** ** [core/payment-processor.ts] *)

Module PaymentProcessor.

Definition X402_VERSION : Z := 1.

Section Processor.

(** The fields of the class: [config], [options] and the facilitator client
    made from [config.facilitator]. *)
Variable X : Externals.
Variable facilitator : Facilitator.
Variable config : PaymentServerConfig.
Variable options : PaymentProcessorOptions.

Definition build_error (c m : string) : PaymentFailure :=
  {| pf_error := {| code := c; message := m; details := None |};
     pf_requirements := None |}.

(** [createPaymentRequirements(request, price, resource?, additionalConfig?)]:
    a requirement ([inl]) or a failure ([inr]); [getAddress] may throw. *)
Definition createPaymentRequirements
    (request : Request) (price : Price) (resource_arg : option string)
    (additionalConfig : option PaymentMiddlewareConfig)
  : js_result (PaymentRequirements + PaymentFailure) :=
  match processPriceToAtomicAmount X price (server_network config) with
  | Throws e => Throws e
  | Returns (inl err) =>
      Returns (inr (build_error "PRICE_PROCESSING_ERROR" err))
  | Returns (inr atomicAmountForAsset) =>
      let maxAmount := aa_maxAmountRequired atomicAmountForAsset in
      let asset_ := aa_asset atomicAmountForAsset in
      if negb (existsb (String.eqb (server_network config)) (SupportedEVMNetworks X))
      then
        Returns (inr (build_error "UNSUPPORTED_NETWORK"
                        ("Unsupported network: " +:+ server_network config)))
      else
        let resourceUrl := or_string resource_arg (req_url request) in
        let method := toUpperCase (req_method request) in
        let cfg := nullish additionalConfig empty_config in
        match getAddress X (recipient config) with
        | Throws e => Throws e
        | Returns payTo_ =>
            match getAddress X (asset_address asset_) with
            | Throws e => Throws e
            | Returns assetAddress =>
                Returns (inl
                  {| scheme := "exact";
                     network := server_network config;
                     maxAmountRequired := maxAmount;
                     resource := resourceUrl;
                     description := nullish (cfg_description cfg) "";
                     mimeType := nullish (cfg_mimeType cfg) "application/json";
                     payTo := payTo_;
                     maxTimeoutSeconds := nullish (cfg_maxTimeoutSeconds cfg) 300;
                     asset := assetAddress;
                     outputSchema :=
                       {| os_input :=
                            obj_spread
                              [("type", JStr "http");
                               ("method", JStr method);
                               ("discoverable",
                                JBool (nullish (cfg_discoverable cfg) true))]
                              (nullish (cfg_inputSchema cfg) []);
                          os_output := cfg_outputSchema cfg |};
                     extra := asset_eip712 asset_ |})
            end
        end
  end.

(** [decodedPayment.x402Version = X402_VERSION] *)
Definition set_x402Version (p : PaymentPayload) (v : Z) : PaymentPayload :=
  {| x402Version := v; pp_scheme := pp_scheme p;
     pp_network := pp_network p; pp_payload := pp_payload p |}.

Definition verification_failure
    (c m : string) (d : option (list (string * js_value)))
    (reqs : PaymentRequirements) : PaymentResult :=
  PaymentFailed
    {| pf_error := {| code := c; message := m; details := d |};
       pf_requirements := Some [reqs] |}.

(** [await this.facilitator.verify(payment, requirement)] *)
Definition facilitator_verify (p : PaymentPayload) (r : PaymentRequirements)
  : M PaymentVerificationResult :=
  fun w =>
    let n := count is_verify (trace w) in
    (verify facilitator n p r, emit (EvVerify p r) w).

(** [await this.facilitator.settle(payment, requirement)] *)
Definition facilitator_settle (p : PaymentPayload) (r : PaymentRequirements)
  : M SettleResponse :=
  fun w =>
    let n := count is_settle (trace w) in
    (settle facilitator n p r, emit (EvSettle p r) w).

(** [verifyPayment(paymentData, requirements)] *)
Definition verifyPayment (paymentData : string) (reqs : PaymentRequirements)
  : M PaymentResult :=
  match decodePayment X paymentData with
  | Throws error =>
      ret (verification_failure "INVALID_PAYMENT"
             (error_message_or error "Invalid payment") None reqs)
  | Returns decoded =>
      let decodedPayment := set_x402Version decoded X402_VERSION in
      match findMatchingPaymentRequirements X [reqs] decodedPayment with
      | None =>
          ret (verification_failure "NO_MATCHING_REQUIREMENTS"
                 "Unable to find matching payment requirements" None reqs)
      | Some selectedRequirement =>
          try_catch
            (verification ← facilitator_verify decodedPayment selectedRequirement;
             if negb (isValid verification) then
               ret (verification_failure "VERIFICATION_FAILED"
                      (or_string (invalidReason verification)
                         "Payment verification failed")
                      (Some [("payer", opt_str (vr_payer verification))])
                      reqs)
             else
               ret (PaymentSuccess
                      {| payment := decodedPayment;
                         requirements := selectedRequirement;
                         verification := verification |}))
            (fun error =>
               ret (verification_failure "VERIFICATION_ERROR"
                      (error_message_or error "Verification failed") None reqs))
      end
  end.

(** [settlePayment(context)]: the synchronous settlement. *)
Definition settlePayment (context : PaymentContext) : M SettlementResult :=
  try_catch
    (settlement ← facilitator_settle (payment context) (requirements context);
     ret {| success := s_success settlement;
            transaction := s_transaction settlement;
            sr_network := s_network settlement;
            payer := s_payer settlement;
            sr_error := None |})
    (fun error =>
       ret {| success := false;
              transaction := None; sr_network := None; payer := None;
              sr_error := Some (error_message_or error "Settlement failed") |}).

(** [addSettlementHeaders(response, settlement)] *)
Definition addSettlementHeaders (response : Response) (settlement : SettlementResult)
  : Response :=
  if success settlement then
    response_set_header "X-Payment-Response"
      (safeBase64Encode X
         (JSON_stringify X
            (JObj [("success", JBool true);
                   ("transaction", opt_str (transaction settlement));
                   ("network", opt_str (sr_network settlement));
                   ("payer", opt_str (payer settlement))])))
      response
  else
    response_set_header "X-Payment-Error"
      (safeBase64Encode X
         (JSON_stringify X
            (JObj [("success", JBool false);
                   ("error", opt_str (sr_error settlement))])))
      response.


(** [cb?.(arg)]: nothing happens when no callback is configured; a
    configured callback is called once and may throw. *)
Definition call_optional {A} (cb : option (A -> callback_result))
    (ev : A -> Event) (arg : A) : M unit :=
  match cb with
  | None => ret tt
  | Some f =>
      tell (ev arg);;
      match f arg with
      | CbReturns => ret tt
      | CbThrows e => throw e
      end
  end.

(** [await new Promise(resolve => setTimeout(resolve, ms))] *)
Definition sleep (ms : Z) : M unit := tell (EvSleep ms).

(** How one pass through the body of the retry loop ends: with [return], or
    by falling through to [attempt++]. *)
Inductive loop_exit :=
| LoopReturn
| LoopNext.

(** The body of the [for] loop of [settlePaymentInBackground]. *)
Definition attempt_body (context : PaymentContext)
    (maxRetries_ retryDelay_ attempt : Z) : M loop_exit :=
  try_catch
    (settlementResult ← settlePayment context;
     if success settlementResult then
       call_optional (asyncSettlement options ≫= onSettlementSuccess)
         EvSettlementSuccess settlementResult;;
       ret LoopReturn
     else
       throw (ErrorObj (or_string (sr_error settlementResult) "Settlement failed")))
    (fun error =>
       if attempt =? maxRetries_ then
         call_optional (asyncSettlement options ≫= onSettlementError)
           EvSettlementError error;;
         ret LoopReturn
       else
         sleep (retryDelay_ * attempt);;
         ret LoopNext).

(** [for (let attempt = ...; attempt <= maxRetries; attempt++) { ... }] *)
Equations? retry_loop (context : PaymentContext)
    (maxRetries_ retryDelay_ attempt : Z) (w : World)
  : js_result unit * World
  by wf (Z.to_nat (maxRetries_ + 1 - attempt)) lt :=
  retry_loop context maxRetries_ retryDelay_ attempt w
    with Equations.Prop.Logic.inspect (attempt <=? maxRetries_) := {
    | exist _ true Hle =>
        match attempt_body context maxRetries_ retryDelay_ attempt w with
        | (Returns LoopNext, w') =>
            retry_loop context maxRetries_ retryDelay_ (attempt + 1) w'
        | (Returns LoopReturn, w') => (Returns tt, w')
        | (Throws e, w') => (Throws e, w')
        end
    | exist _ false Hgt => (Returns tt, w)
    }.
Proof. apply Z.leb_le in Hle. lia. Qed.

(** [settlePaymentInBackground(context)] *)
Definition settlePaymentInBackground (context : PaymentContext) : M unit :=
  let maxRetries_ := nullish (asyncSettlement options ≫= maxRetries) 3 in
  let retryDelay_ := nullish (asyncSettlement options ≫= retryDelay) 1000 in
  retry_loop context maxRetries_ retryDelay_ 1.

(** [settlePaymentAsync(context, response)].  With asynchronous settlement
    the background task is started and not awaited: how its promise ends is
    dropped, and what it does is recorded in the same trace. *)
Definition settlePaymentAsync (context : PaymentContext) (response : Response)
  : M Response :=
  if negb (async_enabled (asyncSettlement options)) then
    settlementResult ← settlePayment context;
    ret (addSettlementHeaders response settlementResult)
  else
    fun w =>
      let w' := snd (settlePaymentInBackground context w) in
      (Returns
         (response_set_header "X-Payment-Status"
            (safeBase64Encode X
               (JSON_stringify X (JObj [("status", JStr "pending_settlement")])))
            response),
       w').

End Processor.
End PaymentProcessor.

(** ** [http/payment-plugin.ts] *)

Module PaymentPlugin.

Definition X_PAYMENT_HEADER : string := "X-PAYMENT".
Definition X_PAYMENT_RESPONSE_HEADER : string := "X-PAYMENT-RESPONSE".
Definition JSON_CONTENT_TYPE : gmap string string :=
  headers_set "Content-Type" "application/json" ∅.
Definition X402_VERSION : Z := 1.

Record PaymentPluginOptions := {
  plugin_asyncSettlement : option AsyncSettlementOptions
}.

Record EnsurePaymentConfig := {
  ep_payTo : string;
  ep_price : Price;
  ep_network : string;
  ep_config : option PaymentMiddlewareConfig;
  ep_resource : option string;
  ep_method : option string
}.

(** [PaymentSettlementResult]: [{ ok, response }]. *)
Record PaymentSettlementResult := {
  ok : bool;
  response : Response
}.

(** [EnsurePaymentResult = PaymentFailureResult | PaymentSuccessResult],
    told apart by [ok]. *)
Inductive EnsurePaymentResult :=
| PaymentFailureResult (response : Response)
| PaymentSuccessResult (payment : PaymentPayload)
    (requirements : PaymentRequirements)
    (settle : Response -> M PaymentSettlementResult).

(** A requirement as the object that [JSON.stringify] walks. *)
Definition requirement_object (r : PaymentRequirements) : js_value :=
  JObj [("scheme", JStr (scheme r));
        ("network", JStr (network r));
        ("maxAmountRequired", JStr (maxAmountRequired r));
        ("resource", JStr (resource r));
        ("description", JStr (description r));
        ("mimeType", JStr (mimeType r));
        ("payTo", JStr (payTo r));
        ("maxTimeoutSeconds", JNum (maxTimeoutSeconds r));
        ("asset", JStr (asset r));
        ("outputSchema",
         JObj [("input", JObj (os_input (outputSchema r)));
               ("output", opt_val (os_output (outputSchema r)))]);
        ("extra", opt_val (extra r))].

Section Plugin.

Variable X : Externals.
(** [createPaymentPlugin(options)]: [options.facilitator] gives the
    facilitator client, [options.asyncSettlement] the settlement mode. *)
Variable facilitator : Facilitator.
Variable options : PaymentPluginOptions.

(** The configuration that [createPaymentPlugin] builds its processor with. *)
Definition processor_config : PaymentServerConfig :=
  {| recipient := ""; server_network := "base" |}.

Definition processor_options : PaymentProcessorOptions :=
  {| asyncSettlement := plugin_asyncSettlement options |}.

(** [buildPaymentRequiredResponse(error, accepts, additional?)] *)
Definition buildPaymentRequiredResponse (error : string) (accepts : js_value)
    (additional : option (list (string * js_value))) : Response :=
  {| status := 402;
     headers := JSON_CONTENT_TYPE;
     body :=
       JSON_stringify X
         (JObj (obj_spread
                  [("x402Version", JNum X402_VERSION);
                   ("error", JStr error);
                   ("accepts", accepts)]
                  (nullish additional []))) |}.

(** [details?.payer] *)
Definition details_payer (d : option (list (string * js_value))) : js_value :=
  match d with
  | None => JUndefined
  | Some fields =>
      match find (fun kv => String.eqb (fst kv) "payer") fields with
      | Some kv => snd kv
      | None => JUndefined
      end
  end.

(** The closure [settlePayment] that [ensurePayment] returns as [settle]. *)
Definition settlePayment (errorMessages : ErrorMessages)
    (paymentRequirements : list PaymentRequirements)
    (context : PaymentContext) (response : Response)
  : M PaymentSettlementResult :=
  if 400 <=? status response then
    ret {| ok := true; response := response |}
  else if async_enabled (plugin_asyncSettlement options) then
    try_catch
      (response' ← PaymentProcessor.settlePaymentAsync X facilitator
                     processor_options context response;
       ret {| ok := true; response := response' |})
      (fun error =>
         ret {| ok := false;
                response :=
                  buildPaymentRequiredResponse
                    (or_string (em_settlementFailed errorMessages)
                       (error_message_or error "Settlement failed"))
                    (JArr (map requirement_object paymentRequirements))
                    None |})
  else
    try_catch
      (settlement ← PaymentProcessor.settlePayment facilitator context;
       let response' :=
         if success settlement then
           response_set_header X_PAYMENT_RESPONSE_HEADER
             (safeBase64Encode X
                (JSON_stringify X
                   (JObj [("success", JBool true);
                          ("transaction", opt_str (transaction settlement));
                          ("network", opt_str (sr_network settlement));
                          ("payer", opt_str (payer settlement))])))
             response
         else response in
       ret {| ok := true; response := response' |})
      (fun error =>
         ret {| ok := false;
                response :=
                  buildPaymentRequiredResponse
                    (or_string (em_settlementFailed errorMessages)
                       (error_message_or error "Settlement failed"))
                    (JArr (map requirement_object paymentRequirements))
                    None |}).

(** [ensurePayment(request, config)] *)
Definition ensurePayment (request : Request) (config : EnsurePaymentConfig)
  : M EnsurePaymentResult :=
  match PaymentProcessor.createPaymentRequirements X processor_config
          request (ep_price config) (ep_resource config)
          (Some (nullish (ep_config config) empty_config)) with
  | Throws e => throw e
  | Returns (inr failure) =>
      ret (PaymentFailureResult
             {| status := 500;
                headers := JSON_CONTENT_TYPE;
                body :=
                  JSON_stringify X
                    (JObj [("x402Version", JNum X402_VERSION);
                           ("error", JStr (message (pf_error failure)));
                           ("code", JStr (code (pf_error failure)))]) |})
  | Returns (inl requirement) =>
      let paymentRequirements := [requirement] in
      let errorMessages :=
        nullish (ep_config config ≫= cfg_errorMessages) empty_messages in
      let paymentHeader := headers_get X_PAYMENT_HEADER (req_headers request) in
      if falsy_string paymentHeader then
        ret (PaymentFailureResult
               (buildPaymentRequiredResponse
                  (or_string (em_paymentRequired errorMessages)
                     (X_PAYMENT_HEADER +:+ " header is required"))
                  (JArr (map requirement_object paymentRequirements))
                  None))
      else
        verificationResult ←
          PaymentProcessor.verifyPayment X facilitator
            (nullish paymentHeader "") requirement;
        match verificationResult with
        | PaymentFailed failure =>
            ret (PaymentFailureResult
                   (buildPaymentRequiredResponse
                      (or_string (em_verificationFailed errorMessages)
                         (or_string (Some (message (pf_error failure)))
                            "Payment verification failed"))
                      (JArr (map requirement_object paymentRequirements))
                      (Some [("payer",
                              details_payer (details (pf_error failure)))])))
        | PaymentSuccess context =>
            ret (PaymentSuccessResult (payment context) (requirements context)
                   (settlePayment errorMessages paymentRequirements context))
        end
  end.

End Plugin.
End PaymentPlugin.

(** ** The tool-invocation adapter ([createPaidToolMethod])

    The wrapper [cbWithPayment] that [paidTool] registers in place of the
    tool's own callback.  Its [console.log] calls are left out.  An object
    member that the code leaves out is a member with the value
    [undefined], which [JSON.stringify] drops. *)

Module PaidMcp.

(** The result of a tool call: [{ isError?, content, structuredContent?,
    _meta? }]. *)
Record ToolResult := {
  isError : option bool;
  content : list js_value;
  structuredContent : option js_value;
  meta : option (list (string * js_value))
}.

(** A value that is not an object. *)
Inductive primitive :=
| PUndefined
| PNull
| PBool (b : bool)
| PNumber (n : Z)
| PString (s : string).

(** What the tool's callback answers with: a result object, or, the
    callback being cast to [any], a value that is not an object. *)
Inductive ToolAnswer :=
| AnswerObject (result : ToolResult)
| AnswerPrimitive (p : primitive).

(** The truth value of an answer in a condition. *)
Definition truthy (answer : ToolAnswer) : bool :=
  match answer with
  | AnswerObject _ => true
  | AnswerPrimitive PUndefined | AnswerPrimitive PNull => false
  | AnswerPrimitive (PBool b) => b
  | AnswerPrimitive (PNumber n) => negb (n =? 0)
  | AnswerPrimitive (PString s) => negb (falsy_string (Some s))
  end.

(** The [extra] argument of a tool call: [extra._meta?.["x402/payment"]],
    a string when present, beside everything else. *)
Record ToolExtra := {
  extra_payment : option string;
  extra_rest : js_value
}.

(** [{ type: "text", text }] *)
Definition text_content (text : string) : js_value :=
  JObj [("type", JStr "text"); ("text", JStr text)].

(** A [PaymentFailure] as the object that goes into [structuredContent]
    and into [JSON.stringify]. *)
Definition failure_object (f : PaymentFailure) : js_value :=
  JObj [("success", JBool false);
        ("error",
         JObj [("code", JStr (code (pf_error f)));
               ("message", JStr (message (pf_error f)));
               ("details",
                match details (pf_error f) with
                | Some d => JObj d
                | None => JUndefined
                end)]);
        ("requirements",
         match pf_requirements f with
         | Some l => JArr (map PaymentPlugin.requirement_object l)
         | None => JUndefined
         end)].

(** [if (!result._meta) result._meta = {}; result._meta[key] = value] *)
Definition set_meta (key : string) (value : js_value) (r : ToolResult)
  : ToolResult :=
  {| isError := isError r;
     content := content r;
     structuredContent := structuredContent r;
     meta := Some (obj_set key value (nullish (meta r) [])) |}.

(** [{ x402Version: 1, error, accepts: [requirements] }] *)
Definition rejection_object (error : string) (requirement : PaymentRequirements)
  : js_value :=
  JObj [("x402Version", JNum 1);
        ("error", JStr error);
        ("accepts", JArr [PaymentPlugin.requirement_object requirement])].

(** A promise that is started and not awaited: what it does is recorded,
    how it ends is dropped. *)
Definition detached {A} (m : M A) : M unit :=
  fun w => (Returns tt, snd (m w)).

Section PaidTool.

Variable X : Externals.
(** [createPaidToolMethod(server, config, options)]: the processor is made
    from [config] and [options]. *)
Variable facilitator : Facilitator.
Variable config : PaymentServerConfig.
Variable options : PaymentProcessorOptions.
(** The conversion of a thrown value in a template literal. *)
Variable String_of : thrown -> string.
(** The [TypeError] of
    [if (!result._meta) result._meta = {}; result._meta[key] = value]
    where [result] is not an object: [_meta] cannot be read of [undefined]
    and [null], and cannot be created on another primitive. *)
Variable TypeError_of : primitive -> thrown.

(** An error-flagged result that carries [object] and its JSON text. *)
Definition error_result (object : js_value) : ToolResult :=
  {| isError := Some true;
     content := [text_content (JSON_stringify X object)];
     structuredContent := Some object;
     meta := None |}.

(** [new Request("http://localhost")] *)
Definition virtual_request : Request :=
  {| req_url := "http://localhost/"; req_method := "GET"; req_headers := ∅ |}.

(** [new Response()] *)
Definition empty_response : Response :=
  {| status := 200; headers := ∅; body := "" |}.

(** The tool's callback is run; a result object whose [isError] is
    truthy, and a throw, both count as an execution error; an answer that
    is not an object does not
    ([result && typeof result === "object" && "isError" in result &&
    result.isError]). *)
Definition run_tool (cb : js_value -> ToolExtra -> js_result ToolAnswer)
    (args : js_value) (extra : ToolExtra) : ToolAnswer * bool :=
  match cb args extra with
  | Returns (AnswerObject result) =>
      (AnswerObject result, nullish (isError result) false)
  | Returns (AnswerPrimitive p) => (AnswerPrimitive p, false)
  | Throws error =>
      (AnswerObject
         {| isError := Some true;
            content := [text_content
                          ("Tool execution failed: " +:+ String_of error)];
            structuredContent := None;
            meta := None |},
       true)
  end.

(** [if (!result._meta) result._meta = {}; result._meta[key] = value] on
    what the callback answered. *)
Definition mark (key : string) (value : js_value) (result : ToolAnswer)
  : M ToolAnswer :=
  match result with
  | AnswerObject r => ret (AnswerObject (set_meta key value r))
  | AnswerPrimitive p => throw (TypeError_of p)
  end.

(** [{ description, mimeType: "application/json" }] *)
Definition tool_config (description : string) : PaymentMiddlewareConfig :=
  {| cfg_description := Some description;
     cfg_mimeType := Some "application/json";
     cfg_maxTimeoutSeconds := None;
     cfg_discoverable := None;
     cfg_inputSchema := None;
     cfg_outputSchema := None;
     cfg_errorMessages := None |}.

(** [cbWithPayment(args, extra)] for the tool [name] with [description],
    price [price] and callback [cb]. *)
Definition cbWithPayment (name description : string) (price : js_value)
    (cb : js_value -> ToolExtra -> js_result ToolAnswer)
    (args : js_value) (extra : ToolExtra) : M ToolAnswer :=
  let payment := extra_payment extra in
  match PaymentProcessor.createPaymentRequirements X config virtual_request
          (PriceNumber price) (Some ("mcp://tool/" +:+ name))
          (Some (tool_config description)) with
  | Throws e => throw e
  | Returns (inr failure) =>
      ret (AnswerObject (error_result (failure_object failure)))
  | Returns (inl requirement) =>
      if falsy_string payment then
        ret (AnswerObject
               (error_result
                  (rejection_object "_meta.x402/payment is required"
                     requirement)))
      else
        verificationResult ←
          PaymentProcessor.verifyPayment X facilitator (nullish payment "")
            requirement;
        match verificationResult with
        | PaymentFailed failure =>
            ret (AnswerObject (error_result (failure_object failure)))
        | PaymentSuccess context =>
            let '(result, executionError) := run_tool cb args extra in
            if negb executionError then
              if async_enabled (asyncSettlement options) then
                result' ←
                  mark "x402/payment-status" (JStr "pending_settlement")
                    result;
                detached
                  (PaymentProcessor.settlePaymentAsync X facilitator options
                     context empty_response);;
                ret result'
              else
                try_catch
                  (settlementResult ←
                     PaymentProcessor.settlePayment facilitator context;
                   if success settlementResult && truthy result then
                     mark "x402/payment-response"
                       (JObj [("success", JBool true);
                              ("transaction",
                               opt_str (transaction settlementResult));
                              ("network",
                               opt_str (sr_network settlementResult));
                              ("payer", opt_str (payer settlementResult))])
                       result
                   else ret result)
                  (fun settlementError =>
                     ret (AnswerObject
                            (error_result
                               (rejection_object
                                  ("Settlement failed: "
                                   +:+ String_of settlementError)
                                  requirement))))
            else ret result
        end
  end.

End PaidTool.
End PaidMcp.

(** ** Test doubles

    Concrete stand-ins for the external capabilities, in the manner of the
    repository's [mockFacilitator] and [mockPaymentContext]; the examples
    below run the code on them. *)

Module Double.

Definition usdc_base : Asset :=
  {| asset_address := "0x833589fCD6eDb6E08f4c7C32D4f71b54bdA02913";
     asset_decimals := 6;
     asset_eip712 := Some (JObj [("name", JStr "USD Coin"); ("version", JStr "2")]) |}.

(** Prices known to the double; any other price is malformed. *)
Definition price_to_atomic (price : Price) (net : string)
  : js_result (string + AtomicAmount) :=
  match price with
  | PriceString "$0.001" =>
      Returns (inr {| aa_maxAmountRequired := "1000"; aa_asset := usdc_base |})
  | PriceString "$0.01" =>
      Returns (inr {| aa_maxAmountRequired := "10000"; aa_asset := usdc_base |})
  | _ => Returns (inl "Invalid price")
  end.

Definition find_matching (accepts : list PaymentRequirements) (p : PaymentPayload)
  : option PaymentRequirements :=
  find (fun r => String.eqb (scheme r) (pp_scheme p)
                 && String.eqb (network r) (pp_network p))%bool accepts.

(** Tokens known to the double; any other token fails to decode. *)
Definition decode (token : string) : js_result PaymentPayload :=
  match token with
  | "token-v1" =>
      Returns {| x402Version := 1; pp_scheme := "exact";
                 pp_network := "base"; pp_payload := JObj [] |}
  | "token-v2" =>
      Returns {| x402Version := 2; pp_scheme := "exact";
                 pp_network := "base"; pp_payload := JObj [] |}
  | _ => Throws (ErrorObj "Invalid payment payload")
  end.

Definition is_undefined (v : js_value) : bool :=
  match v with JUndefined => true | _ => false end.

(** A rendering in the manner of [JSON.stringify], without quotation marks:
    members whose value is [undefined] are left out. *)
Fixpoint render (fuel : nat) (v : js_value) : string :=
  match fuel with
  | O => ""
  | S fuel' =>
      match v with
      | JUndefined => "undefined"
      | JNull => "null"
      | JBool true => "true"
      | JBool false => "false"
      | JNum n => NilZero.string_of_int (Z.to_int n)
      | JStr s => s
      | JArr l => "[" +:+ String.concat "," (map (render fuel') l) +:+ "]"
      | JObj fields =>
          "{" +:+
          String.concat ","
            (map (fun kv => fst kv +:+ ":" +:+ render fuel' (snd kv))
                 (List.filter (fun kv => negb (is_undefined (snd kv))) fields))
          +:+ "}"
      end
  end.

Definition externals : Externals :=
  {| processPriceToAtomicAmount := price_to_atomic;
     findMatchingPaymentRequirements := find_matching;
     safeBase64Encode := fun s => "base64(" +:+ s +:+ ")";
     SupportedEVMNetworks := ["base-sepolia"; "base"; "avalanche-fuji"; "avalanche"];
     getAddress := fun a => Returns a;
     decodePayment := decode;
     JSON_stringify := render 8 |}.

Definition settled : SettleResponse :=
  {| s_success := true; s_transaction := Some "0xabc";
     s_network := Some "base"; s_payer := Some "0x1234" |}.

Definition declined : SettleResponse :=
  {| s_success := false; s_transaction := None;
     s_network := Some "base"; s_payer := Some "0x1234" |}.

Definition accepts_all (n : nat) (p : PaymentPayload) (r : PaymentRequirements)
  : js_result PaymentVerificationResult :=
  Returns {| isValid := true; invalidReason := None; vr_payer := Some "0x1234" |}.

(** A facilitator whose first [k] settle calls fail (they throw on even
    calls and decline on odd ones) and whose later calls succeed. *)
Definition fails_first (k : nat) : Facilitator :=
  {| verify := accepts_all;
     settle := fun n _ _ =>
       if (n <? k)%nat then
         if Nat.even n then Throws (ErrorObj "facilitator unreachable")
         else Returns declined
       else Returns settled |}.

Definition always_fails : Facilitator :=
  {| verify := accepts_all;
     settle := fun _ _ _ => Returns declined |}.

Definition async_options (retries : option Z) : AsyncSettlementOptions :=
  {| enabled := true;
     maxRetries := retries;
     retryDelay := None;
     onSettlementSuccess := Some (fun _ => CbReturns);
     onSettlementError := Some (fun _ => CbReturns) |}.

(** Asynchronous settlement whose [onSettlementSuccess] throws. *)
Definition throwing_options : PaymentProcessorOptions :=
  {| asyncSettlement :=
       Some {| enabled := true;
               maxRetries := Some 2;
               retryDelay := None;
               onSettlementSuccess := Some (fun _ => CbThrows (ErrorObj "boom"));
               onSettlementError := Some (fun _ => CbReturns) |} |}.

(** Asynchronous settlement with [maxRetries: 0]. *)
Definition no_retry_options : PaymentProcessorOptions :=
  {| asyncSettlement := Some (async_options (Some 0)) |}.

Definition server_config : PaymentServerConfig :=
  {| recipient := "0x1234567890123456789012345678901234567890";
     server_network := "base" |}.

(** A configuration on a network outside the supported set. *)
Definition polygon_config : PaymentServerConfig :=
  {| recipient := "0x1234567890123456789012345678901234567890";
     server_network := "polygon" |}.

Definition request (hs : gmap string string) : Request :=
  {| req_url := "http://localhost/test"; req_method := "post";
     req_headers := hs |}.

Definition requirement : PaymentRequirements :=
  {| scheme := "exact"; network := "base"; maxAmountRequired := "1000";
     resource := "http://localhost/test"; description := "";
     mimeType := "application/json";
     payTo := "0x1234567890123456789012345678901234567890";
     maxTimeoutSeconds := 300;
     asset := "0x833589fCD6eDb6E08f4c7C32D4f71b54bdA02913";
     outputSchema :=
       {| os_input := [("type", JStr "http"); ("method", JStr "POST");
                       ("discoverable", JBool true)];
          os_output := None |};
     extra := asset_eip712 usdc_base |}.

(** [mockPaymentContext] of [test-package.js]. *)
Definition context : PaymentContext :=
  {| payment := {| x402Version := 1; pp_scheme := "exact";
                   pp_network := "base"; pp_payload := JUndefined |};
     requirements := requirement;
     verification := {| isValid := true; invalidReason := None;
                        vr_payer := Some "0x1234567890123456789012345678901234567890" |} |}.

Definition handler_response (st : Z) : Response :=
  {| status := st;
     headers := PaymentPlugin.JSON_CONTENT_TYPE;
     body := "{success:true}" |}.

Definition world0 : World := {| trace := [] |}.

(** A request that carries the proof header, and one that does not. *)
Definition paid_request : Request :=
  request (headers_set "X-PAYMENT" "token-v2" ∅).

Definition unpaid_request : Request :=
  request (headers_set "Accept" "application/json" ∅).

Definition ensure_config : PaymentPlugin.EnsurePaymentConfig :=
  {| PaymentPlugin.ep_payTo := "0x1234567890123456789012345678901234567890";
     PaymentPlugin.ep_price := PriceString "$0.01";
     PaymentPlugin.ep_network := "base";
     PaymentPlugin.ep_config := None;
     PaymentPlugin.ep_resource := None;
     PaymentPlugin.ep_method := None |}.

(** The requirement that the plugin builds for [paid_request], and the
    context that verification of its proof gives. *)
Definition plugin_requirement : PaymentRequirements :=
  {| scheme := "exact"; network := "base"; maxAmountRequired := "10000";
     resource := "http://localhost/test"; description := "";
     mimeType := "application/json";
     payTo := "";
     maxTimeoutSeconds := 300;
     asset := "0x833589fCD6eDb6E08f4c7C32D4f71b54bdA02913";
     outputSchema :=
       {| os_input := [("type", JStr "http"); ("method", JStr "POST");
                       ("discoverable", JBool true)];
          os_output := None |};
     extra := asset_eip712 usdc_base |}.

Definition verified_context : PaymentContext :=
  {| payment := {| x402Version := 1; pp_scheme := "exact";
                   pp_network := "base"; pp_payload := JObj [] |};
     requirements := plugin_requirement;
     verification := {| isValid := true; invalidReason := None;
                        vr_payer := Some "0x1234" |} |}.

Definition sync_plugin : PaymentPlugin.PaymentPluginOptions :=
  {| PaymentPlugin.plugin_asyncSettlement := None |}.

Definition async_plugin : PaymentPlugin.PaymentPluginOptions :=
  {| PaymentPlugin.plugin_asyncSettlement := Some (async_options (Some 3)) |}.

(** Externals whose [getAddress] accepts only a [0x] prefix followed by 40
    characters, as an address normaliser does. *)
Definition strict_getAddress (a : string) : js_result string :=
  if (String.prefix "0x" a && Nat.eqb (String.length a) 42)%bool
  then Returns a
  else Throws (ErrorObj "Address is invalid").

Definition strict_externals : Externals :=
  {| processPriceToAtomicAmount := price_to_atomic;
     findMatchingPaymentRequirements := find_matching;
     safeBase64Encode := fun s => "base64(" +:+ s +:+ ")";
     SupportedEVMNetworks := ["base-sepolia"; "base"; "avalanche-fuji"; "avalanche"];
     getAddress := strict_getAddress;
     decodePayment := decode;
     JSON_stringify := render 8 |}.

(** A configuration whose recipient is not an address. *)
Definition malformed_config : PaymentServerConfig :=
  {| recipient := "not-an-address"; server_network := "base" |}.

(** A facilitator that finds every proof invalid. *)
Definition rejects_all : Facilitator :=
  {| verify := fun _ _ _ =>
       Returns {| isValid := false;
                  invalidReason := Some "insufficient_funds";
                  vr_payer := Some "0x1234" |};
     settle := fun _ _ _ => Returns settled |}.

(** The payload of [token-v2] once verification has set its version. *)
Definition forced_payload : PaymentPayload :=
  {| x402Version := 1; pp_scheme := "exact";
     pp_network := "base"; pp_payload := JObj [] |}.

(** Asynchronous settlement, one attempt, whose [onSettlementError]
    throws. *)
Definition error_throwing_options : PaymentProcessorOptions :=
  {| asyncSettlement :=
       Some {| enabled := true;
               maxRetries := Some 1;
               retryDelay := None;
               onSettlementSuccess := None;
               onSettlementError := Some (fun e => CbThrows e) |} |}.

(** A route configuration with a malformed price, one with another
    recipient and network, and a request whose proof header is empty. *)
Definition bad_price_config : PaymentPlugin.EnsurePaymentConfig :=
  {| PaymentPlugin.ep_payTo := "0x1234567890123456789012345678901234567890";
     PaymentPlugin.ep_price := PriceString "free";
     PaymentPlugin.ep_network := "base";
     PaymentPlugin.ep_config := None;
     PaymentPlugin.ep_resource := None;
     PaymentPlugin.ep_method := None |}.

Definition other_recipient_config : PaymentPlugin.EnsurePaymentConfig :=
  {| PaymentPlugin.ep_payTo := "0xabcdefabcdefabcdefabcdefabcdefabcdefabcd";
     PaymentPlugin.ep_price := PriceString "$0.01";
     PaymentPlugin.ep_network := "base-sepolia";
     PaymentPlugin.ep_config := None;
     PaymentPlugin.ep_resource := None;
     PaymentPlugin.ep_method := Some "GET" |}.

(** Externals that also know the price 1 given as a number. *)
Definition tool_price_to_atomic (price : Price) (net : string)
  : js_result (string + AtomicAmount) :=
  match price with
  | PriceNumber (JNum 1) =>
      Returns (inr {| aa_maxAmountRequired := "1000000"; aa_asset := usdc_base |})
  | _ => price_to_atomic price net
  end.

Definition tool_externals : Externals :=
  {| processPriceToAtomicAmount := tool_price_to_atomic;
     findMatchingPaymentRequirements := find_matching;
     safeBase64Encode := fun s => "base64(" +:+ s +:+ ")";
     SupportedEVMNetworks := ["base-sepolia"; "base"; "avalanche-fuji"; "avalanche"];
     getAddress := fun a => Returns a;
     decodePayment := decode;
     JSON_stringify := render 8 |}.

(** The requirement of the tool [add], and the context of its verified
    proof. *)
Definition tool_requirement : PaymentRequirements :=
  {| scheme := "exact"; network := "base"; maxAmountRequired := "1000000";
     resource := "mcp://tool/add"; description := "Add two numbers";
     mimeType := "application/json";
     payTo := "0x1234567890123456789012345678901234567890";
     maxTimeoutSeconds := 300;
     asset := "0x833589fCD6eDb6E08f4c7C32D4f71b54bdA02913";
     outputSchema :=
       {| os_input := [("type", JStr "http"); ("method", JStr "GET");
                       ("discoverable", JBool true)];
          os_output := None |};
     extra := asset_eip712 usdc_base |}.

Definition tool_context : PaymentContext :=
  {| payment := forced_payload;
     requirements := tool_requirement;
     verification := {| isValid := true; invalidReason := None;
                        vr_payer := Some "0x1234" |} |}.

(** A call with a proof and one without, a tool that answers and one that
    throws. *)
Definition paid_extra : PaidMcp.ToolExtra :=
  {| PaidMcp.extra_payment := Some "token-v2"; PaidMcp.extra_rest := JObj [] |}.

Definition unpaid_extra : PaidMcp.ToolExtra :=
  {| PaidMcp.extra_payment := None; PaidMcp.extra_rest := JObj [] |}.

Definition answer : PaidMcp.ToolResult :=
  {| PaidMcp.isError := None;
     PaidMcp.content := [PaidMcp.text_content "3"];
     PaidMcp.structuredContent := None;
     PaidMcp.meta := Some [("trace", JStr "t-1")] |}.

Definition answering_tool (args : js_value) (extra : PaidMcp.ToolExtra)
  : js_result PaidMcp.ToolAnswer := Returns (PaidMcp.AnswerObject answer).

Definition throwing_tool (args : js_value) (extra : PaidMcp.ToolExtra)
  : js_result PaidMcp.ToolAnswer := Throws (ErrorObj "division by zero").

(** A tool that answers with a value that is not an object. *)
Definition bare_tool (p : PaidMcp.primitive) (args : js_value)
    (extra : PaidMcp.ToolExtra) : js_result PaidMcp.ToolAnswer :=
  Returns (PaidMcp.AnswerPrimitive p).

Definition thrown_text (e : thrown) : string :=
  match e with
  | ErrorObj m => "Error: " +:+ m
  | NonError _ => "[object Object]"
  end.

Definition type_error (p : PaidMcp.primitive) : thrown :=
  match p with
  | PaidMcp.PUndefined =>
      ErrorObj "Cannot read properties of undefined (reading '_meta')"
  | PaidMcp.PNull =>
      ErrorObj "Cannot read properties of null (reading '_meta')"
  | _ => ErrorObj "Cannot create property '_meta' on a primitive"
  end.

End Double.

(** ** Vocabulary of the properties *)

(** [w'] is [w] after the events [evs]. *)
Definition extend (w : World) (evs : list Event) : World :=
  {| trace := trace w ++ evs |}.

(** What [PaymentProcessor.settlePayment] makes of the facilitator's answer. *)
Definition settlement_of (answer : js_result SettleResponse) : SettlementResult :=
  match answer with
  | Returns s =>
      {| success := s_success s; transaction := s_transaction s;
         sr_network := s_network s; payer := s_payer s; sr_error := None |}
  | Throws e =>
      {| success := false; transaction := None; sr_network := None;
         payer := None;
         sr_error := Some (error_message_or e "Settlement failed") |}
  end.

(** The result of the [k]-th settlement attempt ([k] counts from 1) made
    from the world [w] on. *)
Definition attempt_result (F : Facilitator) (ctx : PaymentContext)
    (w : World) (k : Z) : SettlementResult :=
  settlement_of
    (settle F (count is_settle (trace w) + Z.to_nat (k - 1))%nat
       (payment ctx) (requirements ctx)).

(** The error that the retry loop throws for a failed attempt. *)
Definition attempt_error (r : SettlementResult) : thrown :=
  ErrorObj (or_string (sr_error r) "Settlement failed").

(** The facilitator call of a settlement attempt for [ctx]. *)
Definition settle_event (ctx : PaymentContext) : Event :=
  EvSettle (payment ctx) (requirements ctx).

(** The events of [k] failed attempts in a row, none of them the last one,
    the first of them with number [attempt]. *)
Fixpoint failed_attempts (ctx : PaymentContext) (delay attempt : Z) (k : nat)
  : list Event :=
  match k with
  | O => []
  | S k' =>
      settle_event ctx
      :: EvSleep (delay * attempt)
      :: failed_attempts ctx delay (attempt + 1) k'
  end.

(** What the [catch] block of the retry loop does with the error [e] at
    attempt [attempt]. *)
Definition catch_block (opts : PaymentProcessorOptions) (n delay attempt : Z)
    (e : thrown) (w : World) : js_result PaymentProcessor.loop_exit * World :=
  if attempt =? n then
    match asyncSettlement opts ≫= onSettlementError with
    | None => (Returns PaymentProcessor.LoopReturn, w)
    | Some g =>
        (match g e with
         | CbReturns => Returns PaymentProcessor.LoopReturn
         | CbThrows e' => Throws e'
         end,
         extend w [EvSettlementError e])
    end
  else (Returns PaymentProcessor.LoopNext, extend w [EvSleep (delay * attempt)]).

(** Neither a settlement attempt nor a wait: a callback or a verification. *)
Definition quiet (e : Event) : bool := negb (is_settle e) && negb (is_sleep e).

(** Walking the events of a background task that has made [made] attempts
    so far: every wait lasts [delay * made] milliseconds, comes after an
    attempt that is not the last of the [n] allowed, and is followed at
    once by the next attempt. *)
Fixpoint waits_ok (ctx : PaymentContext) (n delay made : Z) (evs : list Event)
  : Prop :=
  match evs with
  | [] => True
  | EvSettle _ _ :: rest => waits_ok ctx n delay (made + 1) rest
  | EvSleep ms :: rest =>
      ms = delay * made
      /\ 1 <= made < n
      /\ (exists rest', rest = settle_event ctx :: rest')
      /\ waits_ok ctx n delay made rest
  | _ :: rest => waits_ok ctx n delay made rest
  end.

(** [o[k]] on an object given by its members in order. *)
Fixpoint obj_get (k : string) (o : list (string * js_value)) : option js_value :=
  match o with
  | [] => None
  | (k', v) :: r => if String.eqb k k' then Some v else obj_get k r
  end.

(** The milliseconds that the waits of [evs] add up to. *)
Fixpoint total_wait (evs : list Event) : Z :=
  match evs with
  | [] => 0
  | EvSleep ms :: rest => ms + total_wait rest
  | _ :: rest => total_wait rest
  end.

(** ** Properties *)

Import PaymentProcessor.

(** *** Worlds and event counts *)

Lemma extend_nil w : extend w [] = w.
Proof. destruct w as [t]. unfold extend. simpl. by rewrite app_nil_r. Qed.

Lemma emit_extend e w : emit e w = extend w [e].
Proof. reflexivity. Qed.

Lemma extend_extend w a b : extend (extend w a) b = extend w (a ++ b).
Proof. unfold extend. simpl. by rewrite app_assoc. Qed.

Lemma count_app f a b : count f (a ++ b) = (count f a + count f b)%nat.
Proof. unfold count. by rewrite filter_app, length_app. Qed.

Lemma count_cons f e t :
  count f (e :: t) = ((if f e then 1 else 0) + count f t)%nat.
Proof.
  unfold count. rewrite filter_cons.
  destruct (f e); case_decide; simpl; congruence.
Qed.

Lemma count_nil f : count f [] = 0%nat.
Proof. reflexivity. Qed.

Lemma last_two (pre : list Event) (x y : Event) :
  last (pre ++ [x; y]) = Some y.
Proof. change [x; y] with ([x] ++ [y]). by rewrite app_assoc, last_snoc. Qed.

Lemma supported_spec (net : string) (nets : list string) :
  existsb (String.eqb net) nets = true <-> net ∈ nets.
Proof.
  rewrite existsb_exists, list_elem_of_In. split.
  - intros (x & Hin & Heq). apply String.eqb_eq in Heq. by subst.
  - intros Hin. exists net. split; [done | apply String.eqb_refl].
Qed.

(** The synchronous settlement calls the facilitator once and never throws. *)
Lemma settlePayment_run (F : Facilitator) ctx w :
  settlePayment F ctx w =
    (Returns (attempt_result F ctx w 1),
     extend w [EvSettle (payment ctx) (requirements ctx)]).
Proof.
  unfold settlePayment, attempt_result, try_catch, mbind, M_bind, bind,
    facilitator_settle.
  replace (Z.to_nat (1 - 1)) with 0%nat by lia. rewrite Nat.add_0_r.
  by destruct (settle F _ _ _).
Qed.

Lemma extend_inj (w : World) (a b : list Event) :
  extend w a = extend w b -> a = b.
Proof. unfold extend. intros [= H]. by apply app_inv_head in H. Qed.

Lemma if_guard {A} (b c : bool) (x y : A) :
  b = c -> (if b then x else y) = (if c then x else y).
Proof. by intros ->. Qed.

(** *** The retry loop *)

Section RetryLoop.

Variable F : Facilitator.
Variable opts : PaymentProcessorOptions.
Variable ctx : PaymentContext.
Variables n d : Z.

(** One turn of the [for] loop. *)
Lemma retry_loop_step (attempt : Z) (w : World) :
  retry_loop F opts ctx n d attempt w =
    if attempt <=? n then
      match attempt_body F opts ctx n d attempt w with
      | (Returns LoopNext, w') => retry_loop F opts ctx n d (attempt + 1) w'
      | (Returns LoopReturn, w') => (Returns tt, w')
      | (Throws e, w') => (Throws e, w')
      end
    else (Returns tt, w).
Proof.
  rewrite retry_loop_equation_1.
  destruct (Equations.Prop.Logic.inspect (attempt <=? n)) as [[] Hguard];
    rewrite (if_guard _ _ _ _ Hguard); simpl.
  - destruct (attempt_body F opts ctx n d attempt w) as [[[] |] w']; reflexivity.
  - reflexivity.
Qed.

(** One pass through the loop body, written out. *)
Lemma attempt_body_run (attempt : Z) (w : World) :
  attempt_body F opts ctx n d attempt w =
    let r := attempt_result F ctx w 1 in
    if success r then
      match asyncSettlement opts ≫= onSettlementSuccess with
      | None => (Returns LoopReturn, extend w [settle_event ctx])
      | Some f =>
          match f r with
          | CbReturns =>
              (Returns LoopReturn,
               extend w [settle_event ctx; EvSettlementSuccess r])
          | CbThrows e =>
              catch_block opts n d attempt e
                (extend w [settle_event ctx; EvSettlementSuccess r])
          end
      end
    else catch_block opts n d attempt (attempt_error r) (extend w [settle_event ctx]).
Proof.
  unfold attempt_body, catch_block, try_catch, call_optional, sleep, tell,
    throw, ret, mbind, M_bind, bind.
  rewrite settlePayment_run. simpl.
  destruct (success (attempt_result F ctx w 1)).
  - destruct (asyncSettlement opts) as [a |]; simpl; [| done].
    destruct (onSettlementSuccess a) as [f |]; simpl; [| done].
    rewrite emit_extend, extend_extend. simpl.
    destruct (f _) as [| e]; [done |].
    destruct (attempt =? n); [| done].
    destruct (onSettlementError a) as [g |]; simpl; [| done].
    by destruct (g e).
  - destruct (attempt =? n); [| done].
    destruct (asyncSettlement opts) as [a |]; simpl; [| done].
    destruct (onSettlementError a) as [g |]; simpl; [| done].
    by destruct (g _).
Qed.

(** A failed attempt that is not the last one sleeps and goes on. *)
Lemma attempt_body_failed_next (attempt : Z) (w : World) :
  success (attempt_result F ctx w 1) = false ->
  attempt <> n ->
  attempt_body F opts ctx n d attempt w
    = (Returns LoopNext, extend w [settle_event ctx; EvSleep (d * attempt)]).
Proof.
  intros Hfail Hne. rewrite attempt_body_run. simpl. rewrite Hfail.
  unfold catch_block. rewrite (proj2 (Z.eqb_neq attempt n) Hne).
  by rewrite extend_extend.
Qed.

(** A failed last attempt calls [onSettlementError] and ends the loop. *)
Lemma attempt_body_failed_last (w : World) (onError : thrown -> callback_result) :
  success (attempt_result F ctx w 1) = false ->
  asyncSettlement opts ≫= onSettlementError = Some onError ->
  snd (attempt_body F opts ctx n d n w)
    = extend w [settle_event ctx;
                EvSettlementError (attempt_error (attempt_result F ctx w 1))]
  /\ fst (attempt_body F opts ctx n d n w) <> Returns LoopNext.
Proof.
  intros Hfail Hcb. rewrite attempt_body_run. simpl. rewrite Hfail.
  unfold catch_block. rewrite Z.eqb_refl, Hcb, extend_extend. simpl.
  by destruct (onError _).
Qed.

(** A successful attempt calls [onSettlementSuccess]; when that returns,
    the loop returns. *)
Lemma attempt_body_succeeded (attempt : Z) (w : World)
    (onSuccess : SettlementResult -> callback_result) :
  success (attempt_result F ctx w 1) = true ->
  asyncSettlement opts ≫= onSettlementSuccess = Some onSuccess ->
  onSuccess (attempt_result F ctx w 1) = CbReturns ->
  attempt_body F opts ctx n d attempt w
    = (Returns LoopReturn,
       extend w [settle_event ctx;
                 EvSettlementSuccess (attempt_result F ctx w 1)]).
Proof.
  intros Hok Hcb Hret. rewrite attempt_body_run. simpl.
  by rewrite Hok, Hcb, Hret.
Qed.

(** The events of one pass through the loop body, whatever the facilitator
    and the callbacks do: the attempt, then callbacks, and a wait at the
    end exactly when the loop goes on. *)
Lemma attempt_body_events (attempt : Z) (w : World) :
  exists mid,
    forallb quiet mid = true
    /\ ((attempt <> n
         /\ attempt_body F opts ctx n d attempt w
            = (Returns LoopNext,
               extend w (settle_event ctx :: mid ++ [EvSleep (d * attempt)])))
        \/ (exists exit,
              exit <> Returns LoopNext
              /\ attempt_body F opts ctx n d attempt w
                 = (exit, extend w (settle_event ctx :: mid)))).
Proof.
  rewrite attempt_body_run. unfold catch_block. simpl.
  set (r := attempt_result F ctx w 1).
  destruct (success r);
    [destruct (asyncSettlement opts ≫= onSettlementSuccess) as [f |];
       [destruct (f r) as [| e] |] |].
  all: try destruct (Z.eqb_spec attempt n) as [Heq | Hne].
  all: try destruct (asyncSettlement opts ≫= onSettlementError) as [g |].
  all: rewrite ?extend_extend; simpl.
  all: try match goal with
           | |- context [match ?cb ?e with CbReturns => _ | CbThrows _ => _ end] =>
               destruct (cb e)
           end.
  all: first
    [ by (exists []; split; [done |]; right; eexists; split; [| reflexivity])
    | by (exists [EvSettlementSuccess r]; split; [done |]; right; eexists;
          split; [| reflexivity])
    | by (exists [EvSettlementError (attempt_error r)]; split; [done |]; right;
          eexists; split; [| reflexivity])
    | by (eexists [EvSettlementSuccess r; EvSettlementError _]; split; [done |];
          right; eexists; split; [| reflexivity])
    | by (exists []; split; [done |]; left)
    | by (exists [EvSettlementSuccess r]; split; [done |]; left) ].
Qed.

Lemma attempt_result_shift (w : World) (evs : list Event) (k : Z) :
  1 <= k ->
  attempt_result F ctx (extend w evs) k
    = attempt_result F ctx w (k + Z.of_nat (count is_settle evs)).
Proof.
  intros Hk. unfold attempt_result, extend. simpl. rewrite count_app.
  do 2 f_equal. lia.
Qed.

(** [k] failed attempts in a row, none of them the last one, leave the loop
    at attempt [attempt + k] after the events [failed_attempts]. *)
Lemma retry_loop_failed_attempts (k : nat) :
  forall (attempt : Z) (w : World),
    attempt + Z.of_nat k <= n ->
    (forall i, 1 <= i <= Z.of_nat k ->
       success (attempt_result F ctx w i) = false) ->
    retry_loop F opts ctx n d attempt w
      = retry_loop F opts ctx n d (attempt + Z.of_nat k)
          (extend w (failed_attempts ctx d attempt k)).
Proof.
  induction k as [| k IH]; intros attempt w Hle Hfail.
  - simpl. by rewrite extend_nil, Z.add_0_r.
  - rewrite retry_loop_step.
    rewrite (proj2 (Z.leb_le attempt n)) by lia.
    rewrite attempt_body_failed_next by (try apply Hfail; lia).
    rewrite IH.
    + rewrite extend_extend. simpl. f_equal. lia.
    + lia.
    + intros i Hi. rewrite attempt_result_shift by lia.
      apply Hfail. rewrite !count_cons, count_nil. simpl. lia.
Qed.

Lemma count_failed_attempts (attempt : Z) (k : nat) :
  count is_settle (failed_attempts ctx d attempt k) = k
  /\ count is_sleep (failed_attempts ctx d attempt k) = k
  /\ count is_success_callback (failed_attempts ctx d attempt k) = 0%nat
  /\ count is_error_callback (failed_attempts ctx d attempt k) = 0%nat.
Proof.
  revert attempt. induction k as [| k IH]; intros attempt; simpl.
  - by rewrite !count_nil.
  - rewrite !count_cons. simpl.
    destruct (IH (attempt + 1)) as (-> & -> & -> & ->). done.
Qed.

(** The last of [S k] failed attempts in a row, taken apart. *)
Lemma failed_attempts_last (attempt : Z) (k : nat) :
  failed_attempts ctx d attempt (S k)
    = failed_attempts ctx d attempt k
      ++ [settle_event ctx; EvSleep (d * (attempt + Z.of_nat k))].
Proof.
  revert attempt. induction k as [| k IH]; intros attempt.
  - simpl. by rewrite Z.add_0_r.
  - change (failed_attempts ctx d attempt (S (S k)))
      with (settle_event ctx :: EvSleep (d * attempt)
            :: failed_attempts ctx d (attempt + 1) (S k)).
    rewrite IH.
    replace (attempt + 1 + Z.of_nat k) with (attempt + Z.of_nat (S k)) by lia.
    reflexivity.
Qed.

(** Either all of the attempts 1 to [m] fail, or one of them is the first
    to succeed. *)
Lemma first_success_or_none (w : World) (m : nat) :
  (forall i, 1 <= i <= Z.of_nat m ->
     success (attempt_result F ctx w i) = false)
  \/ (exists j, 1 <= j <= Z.of_nat m
        /\ (forall i, 1 <= i < j -> success (attempt_result F ctx w i) = false)
        /\ success (attempt_result F ctx w j) = true).
Proof.
  induction m as [| m [Hall | (j & Hj & Hbefore & Hok)]].
  - left. intros i Hi. lia.
  - destruct (success (attempt_result F ctx w (Z.of_nat (S m)))) eqn:Hlast.
    + right. exists (Z.of_nat (S m)). split; [lia |]. split; [| done].
      intros i Hi. apply Hall. lia.
    + left. intros i Hi.
      destruct (decide (i = Z.of_nat (S m))) as [-> | Hne]; [done |].
      apply Hall. lia.
  - right. exists j. split; [lia | done].
Qed.

Lemma waits_ok_quiet (made : Z) (mid rest : list Event) :
  forallb quiet mid = true ->
  waits_ok ctx n d made rest -> waits_ok ctx n d made (mid ++ rest).
Proof.
  induction mid as [| e mid IH]; [done |].
  simpl. intros [He Hmid]%andb_prop Hrest.
  destruct e; try discriminate; by apply IH.
Qed.

(** The waits of the loop from attempt [attempt] on. *)
Lemma retry_loop_waits (m : nat) :
  forall (attempt : Z) (w : World),
    Z.to_nat (n + 1 - attempt) = m ->
    1 <= attempt ->
    exists evs,
      snd (retry_loop F opts ctx n d attempt w) = extend w evs
      /\ waits_ok ctx n d (attempt - 1) evs
      /\ (attempt <= n -> exists rest, evs = settle_event ctx :: rest).
Proof.
  induction m as [| m IH]; intros attempt w Hm Hattempt;
    rewrite retry_loop_step;
    destruct (Z.leb_spec attempt n) as [Hle | Hgt]; try lia.
  - exists []. rewrite extend_nil. split; [done |]. split; [done | lia].
  - destruct (attempt_body_events attempt w)
      as (mid & Hquiet & [(Hne & ->) | (exit & Hexit & ->)]).
    + destruct (IH (attempt + 1)
                  (extend w (settle_event ctx :: mid ++ [EvSleep (d * attempt)])))
        as (evs & Hrun & Hwaits & Hhead); [lia | lia |].
      destruct Hhead as (rest & ->); [lia |].
      exists (settle_event ctx :: mid ++ EvSleep (d * attempt) :: settle_event ctx :: rest).
      split.
      { rewrite Hrun, extend_extend. simpl. by rewrite <- app_assoc. }
      split; [| by eexists].
      simpl. replace (attempt - 1 + 1) with attempt by lia.
      apply waits_ok_quiet; [done |].
      simpl. split; [done |]. split; [lia |]. split; [by eexists |].
      replace (attempt + 1 - 1 + 1) with (attempt + 1) in Hwaits by lia.
      simpl in Hwaits. by replace (attempt + 1 - 1 + 1) with (attempt + 1) in Hwaits by lia.
    + exists (settle_event ctx :: mid). split.
      { by destruct exit as [[] | e]. }
      split; [| by eexists].
      simpl. rewrite <- (app_nil_r mid). by apply waits_ok_quiet.
Qed.

(** A wait found in events that satisfy [waits_ok]. *)
Lemma waits_ok_split (made : Z) (before : list Event) :
  forall (made0 : Z) (ms : Z) (after : list Event),
    waits_ok ctx n d made0 (before ++ EvSleep ms :: after) ->
    made = made0 + Z.of_nat (count is_settle before) ->
    ms = d * made
    /\ 1 <= made < n
    /\ exists after', after = settle_event ctx :: after'.
Proof.
  induction before as [| e before IH]; intros made0 ms after Hok Hmade.
  - simpl in Hok. rewrite count_nil in Hmade.
    destruct Hok as (-> & Hrange & Hnext & _).
    replace made with made0 by lia. done.
  - rewrite count_cons in Hmade.
    destruct e; simpl in Hok, Hmade.
    + apply (IH made0 ms after Hok); lia.
    + apply (IH (made0 + 1) ms after Hok); lia.
    + destruct Hok as (_ & _ & _ & Hok). apply (IH made0 ms after Hok); lia.
    + apply (IH made0 ms after Hok); lia.
    + apply (IH made0 ms after Hok); lia.
Qed.

Section Callbacks.

(** Both callbacks are configured, and [onSettlementSuccess] returns. *)
Variable onSuccess : SettlementResult -> callback_result.
Variable onError : thrown -> callback_result.
Hypothesis success_configured :
  asyncSettlement opts ≫= onSettlementSuccess = Some onSuccess.
Hypothesis error_configured :
  asyncSettlement opts ≫= onSettlementError = Some onError.
Hypothesis success_returns : forall r, onSuccess r = CbReturns.

(** The run in which attempt [j] is the first to succeed. *)
Lemma retry_loop_first_success (w : World) (j : Z) :
  1 <= j <= n ->
  (forall i, 1 <= i < j -> success (attempt_result F ctx w i) = false) ->
  success (attempt_result F ctx w j) = true ->
  retry_loop F opts ctx n d 1 w
    = (Returns tt,
       extend w (failed_attempts ctx d 1 (Z.to_nat (j - 1))
                 ++ [settle_event ctx;
                     EvSettlementSuccess (attempt_result F ctx w j)])).
Proof.
  intros Hj Hbefore Hok.
  rewrite (retry_loop_failed_attempts (Z.to_nat (j - 1))) by (intros; try apply Hbefore; lia).
  replace (1 + Z.of_nat (Z.to_nat (j - 1))) with j by lia.
  assert (Hres :
    attempt_result F ctx (extend w (failed_attempts ctx d 1 (Z.to_nat (j - 1)))) 1
      = attempt_result F ctx w j).
  { rewrite attempt_result_shift by lia.
    rewrite (proj1 (count_failed_attempts 1 _)). f_equal. lia. }
  rewrite retry_loop_step.
  rewrite (proj2 (Z.leb_le j n)) by lia.
  rewrite (attempt_body_succeeded _ _ onSuccess); rewrite ?Hres; try done.
  by rewrite extend_extend.
Qed.

(** The run in which all [n] attempts fail. *)
Lemma retry_loop_all_fail (w : World) :
  1 <= n ->
  (forall i, 1 <= i <= n -> success (attempt_result F ctx w i) = false) ->
  snd (retry_loop F opts ctx n d 1 w)
    = extend w (failed_attempts ctx d 1 (Z.to_nat (n - 1))
                ++ [settle_event ctx;
                    EvSettlementError
                      (attempt_error (attempt_result F ctx w n))]).
Proof.
  intros Hn Hfail.
  rewrite (retry_loop_failed_attempts (Z.to_nat (n - 1))) by (intros; try apply Hfail; lia).
  replace (1 + Z.of_nat (Z.to_nat (n - 1))) with n by lia.
  assert (Hres :
    attempt_result F ctx (extend w (failed_attempts ctx d 1 (Z.to_nat (n - 1)))) 1
      = attempt_result F ctx w n).
  { rewrite attempt_result_shift by lia.
    rewrite (proj1 (count_failed_attempts 1 _)). f_equal. lia. }
  rewrite retry_loop_step.
  rewrite (proj2 (Z.leb_le n n)) by lia.
  destruct (attempt_body_failed_last
              (extend w (failed_attempts ctx d 1 (Z.to_nat (n - 1)))) onError)
    as [Hw Hexit]; [rewrite Hres; apply Hfail; lia | done |].
  rewrite Hres, extend_extend in Hw.
  destruct (attempt_body F opts ctx n d n _) as [[[] | e] w']; simpl in *;
    congruence.
Qed.

End Callbacks.

End RetryLoop.

(** *** The requirement builder *)

(** The price is processed first, and a price that fails to convert ends
    the call there, whatever the network. *)
Lemma createPaymentRequirements_price_error
    (X : Externals) (config : PaymentServerConfig) (request : Request)
    (price : Price) (resource_arg : option string)
    (additionalConfig : option PaymentMiddlewareConfig) (err : string) :
  processPriceToAtomicAmount X price (server_network config) = Returns (inl err) ->
  createPaymentRequirements X config request price resource_arg additionalConfig
    = Returns (inr (build_error "PRICE_PROCESSING_ERROR" err)).
Proof. intros H. unfold createPaymentRequirements. by rewrite H. Qed.

(** C4, as stated, fails: on the network [polygon], which is not supported,
    the malformed price [free] gives [PRICE_PROCESSING_ERROR]. *)
Lemma unsupported_network_counterexample :
  (server_network Double.polygon_config ∉ SupportedEVMNetworks Double.externals)
  /\ exists failure,
       createPaymentRequirements Double.externals Double.polygon_config
         (Double.request ∅)
         (PriceString "free") None None = Returns (inr failure)
       /\ code (pf_error failure) = "PRICE_PROCESSING_ERROR"
       /\ code (pf_error failure) <> "UNSUPPORTED_NETWORK".
Proof.
  split.
  - rewrite <- supported_spec. by vm_compute.
  - eexists. split; [reflexivity |]. split; [reflexivity | discriminate].
Qed.

(** C4, amended. When the configured network is not in the supported set,
    every price that converts to an atomic amount gives the failure
    [UNSUPPORTED_NETWORK], and every price whose conversion reports an
    error gives [PRICE_PROCESSING_ERROR]. *)
Theorem createPaymentRequirements_unsupported_network
    (X : Externals) (config : PaymentServerConfig) (request : Request)
    (price : Price) (resource_arg : option string)
    (additionalConfig : option PaymentMiddlewareConfig) :
  server_network config ∉ SupportedEVMNetworks X ->
  (forall amount,
     processPriceToAtomicAmount X price (server_network config)
       = Returns (inr amount) ->
     exists failure,
       createPaymentRequirements X config request price resource_arg
         additionalConfig = Returns (inr failure)
       /\ code (pf_error failure) = "UNSUPPORTED_NETWORK")
  /\ (forall err,
        processPriceToAtomicAmount X price (server_network config)
          = Returns (inl err) ->
        exists failure,
          createPaymentRequirements X config request price resource_arg
            additionalConfig = Returns (inr failure)
          /\ code (pf_error failure) = "PRICE_PROCESSING_ERROR").
Proof.
  intros Hnet. split.
  - intros amount Hprice. unfold createPaymentRequirements. rewrite Hprice.
    destruct (existsb _ _) eqn:Hex.
    + apply supported_spec in Hex. contradiction.
    + simpl. eexists. split; reflexivity.
  - intros err Hprice. eexists. split.
    + by apply createPaymentRequirements_price_error.
    + reflexivity.
Qed.

Lemma createPaymentRequirements_unsupported_network_witness :
  (server_network Double.polygon_config ∉ SupportedEVMNetworks Double.externals)
  /\ exists failure,
       createPaymentRequirements Double.externals Double.polygon_config
         (Double.request ∅) (PriceString "$0.001") None None
         = Returns (inr failure)
       /\ code (pf_error failure) = "UNSUPPORTED_NETWORK".
Proof.
  assert (Hnet : server_network Double.polygon_config
                   ∉ SupportedEVMNetworks Double.externals).
  { rewrite <- supported_spec. by vm_compute. }
  split; [exact Hnet |].
  apply (proj1 (createPaymentRequirements_unsupported_network Double.externals
                  Double.polygon_config (Double.request ∅)
                  (PriceString "$0.001") None None Hnet)
           {| aa_maxAmountRequired := "1000"; aa_asset := Double.usdc_base |}).
  reflexivity.
Defined.

(** The plugin builds its processor with an empty recipient, so a
    requirement is built only where [getAddress] accepts the empty
    string; the built requirement is on the network [base]. *)
Lemma plugin_requirement_recipient
    (X : Externals) (request : Request) (price : Price)
    (resource_arg : option string)
    (additionalConfig : option PaymentMiddlewareConfig)
    (requirement : PaymentRequirements) :
  createPaymentRequirements X PaymentPlugin.processor_config request price
    resource_arg additionalConfig = Returns (inl requirement) ->
  getAddress X "" = Returns (payTo requirement)
  /\ network requirement = "base".
Proof.
  unfold createPaymentRequirements. simpl.
  destruct (processPriceToAtomicAmount X price "base") as [[err | amount] | e];
    try discriminate.
  destruct (negb _); try discriminate.
  destruct (getAddress X "") as [payTo_ | e]; try discriminate.
  destruct (getAddress X _) as [asset_ | e]; try discriminate.
  by intros [= <-].
Qed.

(** *** The proof verifier *)

(** C3. A proof token that fails to decode makes [verifyPayment] return the
    failure [INVALID_PAYMENT] with the one-element requirements list, and
    the world is left as it was: neither [verify] nor [settle] of the
    facilitator is called. *)
Theorem verifyPayment_invalid_payment
    (X : Externals) (F : Facilitator) (token : string)
    (reqs : PaymentRequirements) (w : World) (e : thrown) :
  decodePayment X token = Throws e ->
  let run := verifyPayment X F token reqs w in
  (exists failure,
      fst run = Returns (PaymentFailed failure)
      /\ code (pf_error failure) = "INVALID_PAYMENT"
      /\ pf_requirements failure = Some [reqs])
  /\ snd run = w
  /\ count is_verify (trace (snd run)) = count is_verify (trace w)
  /\ count is_settle (trace (snd run)) = count is_settle (trace w).
Proof.
  intros Hdec run. subst run. unfold verifyPayment. rewrite Hdec. simpl.
  split; [| done]. eexists. split; [reflexivity |]. done.
Qed.

Lemma verifyPayment_invalid_payment_witness :
  decodePayment Double.externals "invalid-payment"
    = Throws (ErrorObj "Invalid payment payload")
  /\ snd (verifyPayment Double.externals Double.always_fails "invalid-payment"
            Double.requirement Double.world0) = Double.world0.
Proof.
  split; [reflexivity |].
  apply (verifyPayment_invalid_payment Double.externals Double.always_fails
           "invalid-payment" Double.requirement Double.world0
           (ErrorObj "Invalid payment payload")).
  reflexivity.
Defined.



(** *** The settlement engine *)

(** C7. With asynchronous settlement not enabled, [settlePaymentAsync] makes
    one settlement attempt and returns the response with the outcome in
    its headers: after a successful settlement [X-Payment-Response] holds
    the encoded JSON of [{success: true, transaction, network, payer}],
    after a failed one [X-Payment-Error] holds that of
    [{success: false, error}]; nothing else of the response changes, so
    [X-Payment-Status] is not set. *)
Theorem settlePaymentAsync_synchronous
    (X : Externals) (F : Facilitator) (opts : PaymentProcessorOptions)
    (context : PaymentContext) (response : Response) (w : World) :
  async_enabled (asyncSettlement opts) = false ->
  let result := attempt_result F context w 1 in
  exists response',
    settlePaymentAsync X F opts context response w
      = (Returns response',
         extend w [EvSettle (payment context) (requirements context)])
    /\ status response' = status response
    /\ body response' = body response
    /\ (success result = true ->
        headers response'
        = headers_set "X-Payment-Response"
            (safeBase64Encode X
               (JSON_stringify X
                  (JObj [("success", JBool true);
                         ("transaction", opt_str (transaction result));
                         ("network", opt_str (sr_network result));
                         ("payer", opt_str (payer result))])))
            (headers response))
    /\ (success result = false ->
        headers response'
        = headers_set "X-Payment-Error"
            (safeBase64Encode X
               (JSON_stringify X
                  (JObj [("success", JBool false);
                         ("error", opt_str (sr_error result))])))
            (headers response))
    /\ headers_get "X-Payment-Status" (headers response')
       = headers_get "X-Payment-Status" (headers response).
Proof.
  intros Hsync result. unfold settlePaymentAsync. rewrite Hsync. simpl.
  unfold mbind, M_bind, bind. rewrite settlePayment_run. fold result.
  eexists. split; [reflexivity |].
  unfold addSettlementHeaders.
  destruct (success result); simpl.
  all: repeat split; try done.
  all: unfold headers_get, headers_set; by rewrite lookup_insert_ne.
Qed.

Lemma settlePaymentAsync_synchronous_witness :
  async_enabled (asyncSettlement {| asyncSettlement := None |}) = false
  /\ exists response',
       fst (settlePaymentAsync Double.externals (Double.fails_first 0)
              {| asyncSettlement := None |} Double.context
              (Double.handler_response 200) Double.world0)
         = Returns response'
       /\ headers_get "x-payment-response" (headers response')
          = Some "base64({success:true,transaction:0xabc,network:base,payer:0x1234})".
Proof.
  split; [reflexivity |].
  destruct (settlePaymentAsync_synchronous Double.externals (Double.fails_first 0)
              {| asyncSettlement := None |} Double.context
              (Double.handler_response 200) Double.world0 eq_refl)
    as (response' & Hrun & _ & _ & Hok & _).
  exists response'. split; [by rewrite Hrun |].
  rewrite Hok by reflexivity. by vm_compute.
Defined.

(** The retry scenarios: a facilitator that fails twice and then settles,
    with [maxRetries] 3; one that always fails, with the default
    [maxRetries]; and a facilitator that settles at once while
    [onSettlementSuccess] throws, with [maxRetries] 2. *)
Example fails_twice_then_settles :
  trace (snd (settlePaymentInBackground (Double.fails_first 2)
                {| asyncSettlement := Some (Double.async_options (Some 3)) |}
                Double.context Double.world0))
  = [settle_event Double.context; EvSleep 1000;
     settle_event Double.context; EvSleep 2000;
     settle_event Double.context;
     EvSettlementSuccess (settlement_of (Returns Double.settled))].
Proof. reflexivity. Qed.

Example always_fails_exhausts_retries :
  trace (snd (settlePaymentInBackground Double.always_fails
                {| asyncSettlement := Some (Double.async_options None) |}
                Double.context Double.world0))
  = [settle_event Double.context; EvSleep 1000;
     settle_event Double.context; EvSleep 2000;
     settle_event Double.context;
     EvSettlementError (ErrorObj "Settlement failed")].
Proof. reflexivity. Qed.

Example throwing_callback_settles_again :
  trace (snd (settlePaymentInBackground (Double.fails_first 0)
                Double.throwing_options Double.context Double.world0))
  = [settle_event Double.context;
     EvSettlementSuccess (settlement_of (Returns Double.settled));
     EvSleep 1000;
     settle_event Double.context;
     EvSettlementSuccess (settlement_of (Returns Double.settled));
     EvSettlementError (ErrorObj "boom")].
Proof. reflexivity. Qed.

(** C10. With [maxRetries] configured as 0 the background task does
    nothing: the facilitator's [settle] is not called and neither callback
    runs, so that no callback fires at all. *)
Theorem settlePaymentInBackground_zero_retries
    (F : Facilitator) (a : AsyncSettlementOptions) (ctx : PaymentContext)
    (w : World) :
  enabled a = true ->
  maxRetries a = Some 0 ->
  let run := settlePaymentInBackground F {| asyncSettlement := Some a |} ctx w in
  run = (Returns tt, w)
  /\ count is_settle (trace (snd run)) = count is_settle (trace w)
  /\ count is_success_callback (trace (snd run))
     = count is_success_callback (trace w)
  /\ count is_error_callback (trace (snd run))
     = count is_error_callback (trace w).
Proof.
  intros _ Hzero run.
  assert (Hrun : run = (Returns tt, w)).
  { subst run. unfold settlePaymentInBackground. simpl. rewrite Hzero. simpl.
    by rewrite retry_loop_step. }
  by rewrite Hrun.
Qed.

Lemma settlePaymentInBackground_zero_retries_witness :
  enabled (Double.async_options (Some 0)) = true
  /\ maxRetries (Double.async_options (Some 0)) = Some 0
  /\ settlePaymentInBackground Double.always_fails
       {| asyncSettlement := Some (Double.async_options (Some 0)) |}
       Double.context Double.world0
     = (Returns tt, Double.world0).
Proof.
  split; [reflexivity |]. split; [reflexivity |].
  apply (settlePaymentInBackground_zero_retries Double.always_fails
           (Double.async_options (Some 0)) Double.context Double.world0);
    reflexivity.
Defined.

(** C1, as stated, fails: with [maxRetries] 0 no callback fires. *)
Lemma one_callback_counterexample :
  async_enabled (asyncSettlement Double.no_retry_options) = true
  /\ nullish (asyncSettlement Double.no_retry_options ≫= maxRetries) 3 = 0
  /\ trace (snd (settlePaymentInBackground Double.always_fails
                   Double.no_retry_options Double.context Double.world0)) = []
  /\ count is_success_callback
       (trace (snd (settlePaymentInBackground Double.always_fails
                      Double.no_retry_options Double.context Double.world0)))
     = 0%nat
  /\ count is_error_callback
       (trace (snd (settlePaymentInBackground Double.always_fails
                      Double.no_retry_options Double.context Double.world0)))
     = 0%nat.
Proof. repeat split; by vm_compute. Qed.

(** C1, amended. With asynchronous settlement enabled, [maxRetries] = n at
    least 1, both callbacks configured and [onSettlementSuccess] returning
    normally, the background task calls the facilitator's [settle] at most
    n times and exactly one callback fires.  When attempt j is the first to
    succeed, [settle] was called j times and the run ends with the one call
    of [onSettlementSuccess] on that attempt's result, with no call of
    [onSettlementError].  When all n attempts fail, [settle] was called n
    times and the run ends with the one call of [onSettlementError]; and
    [onSettlementError] is called in no other case. *)
Theorem settlePaymentInBackground_one_callback
    (F : Facilitator) (opts : PaymentProcessorOptions)
    (a : AsyncSettlementOptions) (ctx : PaymentContext) (w : World)
    (onSuccess : SettlementResult -> callback_result)
    (onError : thrown -> callback_result) (n : Z) :
  asyncSettlement opts = Some a ->
  enabled a = true ->
  nullish (maxRetries a) 3 = n ->
  1 <= n ->
  onSettlementSuccess a = Some onSuccess ->
  (forall r, onSuccess r = CbReturns) ->
  onSettlementError a = Some onError ->
  exists evs,
    snd (settlePaymentInBackground F opts ctx w) = extend w evs
    /\ Z.of_nat (count is_settle evs) <= n
    /\ (count is_success_callback evs + count is_error_callback evs = 1)%nat
    /\ (forall j,
          1 <= j <= n ->
          (forall i, 1 <= i < j -> success (attempt_result F ctx w i) = false) ->
          success (attempt_result F ctx w j) = true ->
          Z.of_nat (count is_settle evs) = j
          /\ count is_success_callback evs = 1%nat
          /\ count is_error_callback evs = 0%nat
          /\ last evs = Some (EvSettlementSuccess (attempt_result F ctx w j)))
    /\ ((forall i, 1 <= i <= n -> success (attempt_result F ctx w i) = false) ->
        Z.of_nat (count is_settle evs) = n
        /\ count is_success_callback evs = 0%nat
        /\ count is_error_callback evs = 1%nat
        /\ last evs
           = Some (EvSettlementError (attempt_error (attempt_result F ctx w n))))
    /\ (count is_error_callback evs = 1%nat ->
        forall i, 1 <= i <= n -> success (attempt_result F ctx w i) = false).
Proof.
  intros Hopts _ Hn Hpos HonS Hret HonE.
  unfold settlePaymentInBackground. rewrite Hopts. simpl. rewrite Hn.
  set (d := nullish (retryDelay a) 1000).
  assert (HS : asyncSettlement opts ≫= onSettlementSuccess = Some onSuccess)
    by (by rewrite Hopts).
  assert (HE : asyncSettlement opts ≫= onSettlementError = Some onError)
    by (by rewrite Hopts).
  destruct (first_success_or_none F ctx w (Z.to_nat n))
    as [Hall | (j & Hj & Hbefore & Hok)].
  - assert (Hall' : forall i, 1 <= i <= n ->
                      success (attempt_result F ctx w i) = false)
      by (intros; apply Hall; lia).
    eexists. split; [by apply (retry_loop_all_fail F opts ctx n d onError) |].
    destruct (count_failed_attempts ctx d 1 (Z.to_nat (n - 1)))
      as (Hc1 & _ & Hc2 & Hc3).
    rewrite !count_app, !count_cons, !count_nil, Hc1, Hc2, Hc3. simpl.
    split; [lia |]. split; [done |]. split.
    { intros j Hj _ Hok. rewrite Hall' in Hok by lia. discriminate. }
    split; [| done].
    intros _. split; [lia |]. by rewrite last_two.
  - eexists. split.
    { erewrite (retry_loop_first_success F opts ctx n d onSuccess HS Hret w j);
        [reflexivity | lia | done | done]. }
    destruct (count_failed_attempts ctx d 1 (Z.to_nat (j - 1)))
      as (Hc1 & _ & Hc2 & Hc3).
    rewrite !count_app, !count_cons, !count_nil, Hc1, Hc2, Hc3. simpl.
    split; [lia |]. split; [done |]. split.
    { intros j' Hj' Hbefore' Hok'.
      assert (j' = j) as ->.
      { destruct (Z.lt_trichotomy j' j) as [Hlt | [-> | Hgt]]; [| done |].
        - rewrite Hbefore in Hok' by lia. discriminate.
        - rewrite Hbefore' in Hok by lia. discriminate. }
      split; [lia |]. split; [done |]. split; [done |].
      apply last_two. }
    split; [| discriminate].
    intros Hall. rewrite Hall in Hok by lia. discriminate.
Qed.

Lemma settlePaymentInBackground_one_callback_witness :
  1 <= 3
  /\ exists evs,
       snd (settlePaymentInBackground (Double.fails_first 2)
              {| asyncSettlement := Some (Double.async_options (Some 3)) |}
              Double.context Double.world0)
         = extend Double.world0 evs
       /\ (count is_success_callback evs + count is_error_callback evs = 1)%nat.
Proof.
  split; [lia |].
  destruct (settlePaymentInBackground_one_callback (Double.fails_first 2)
              {| asyncSettlement := Some (Double.async_options (Some 3)) |}
              (Double.async_options (Some 3)) Double.context Double.world0
              (fun _ => CbReturns) (fun _ => CbReturns) 3
              eq_refl eq_refl eq_refl ltac:(lia) eq_refl (fun _ => eq_refl) eq_refl)
    as (evs & Hrun & _ & Hone & _).
  exists evs. by split.
Defined.

(** C2. In the background task, with n = [maxRetries] and d = [retryDelay]:
    every wait comes after k attempts with 1 <= k < n, lasts d * k
    milliseconds and is followed at once by the next attempt, so that no
    wait follows the last attempt; and when the attempts 1 to k all fail,
    for k < n, the failed attempt k is followed by the wait of d * k
    milliseconds and then by attempt k + 1. *)
Theorem settlePaymentInBackground_backoff
    (F : Facilitator) (opts : PaymentProcessorOptions) (ctx : PaymentContext)
    (w : World) :
  let n := nullish (asyncSettlement opts ≫= maxRetries) 3 in
  let d := nullish (asyncSettlement opts ≫= retryDelay) 1000 in
  let attempt := EvSettle (payment ctx) (requirements ctx) in
  exists evs,
    snd (settlePaymentInBackground F opts ctx w) = extend w evs
    /\ (forall before ms after,
          evs = before ++ EvSleep ms :: after ->
          let k := Z.of_nat (count is_settle before) in
          ms = d * k
          /\ 1 <= k < n
          /\ exists after', after = attempt :: after')
    /\ (forall k,
          1 <= k < n ->
          (forall i, 1 <= i <= k -> success (attempt_result F ctx w i) = false) ->
          exists before after,
            evs = before ++ attempt :: EvSleep (d * k) :: attempt :: after
            /\ Z.of_nat (count is_settle before) = k - 1).
Proof.
  intros n d attempt. unfold settlePaymentInBackground. fold n d.
  destruct (retry_loop_waits F opts ctx n d _ 1 w eq_refl ltac:(lia))
    as (evs & Hrun & Hwaits & _).
  exists evs. split; [done |]. split.
  - intros before ms after Hevs. subst evs. cbv zeta.
    apply (waits_ok_split ctx n d _ before 0 ms after Hwaits). lia.
  - intros k Hk Hfail.
    rewrite (retry_loop_failed_attempts F opts ctx n d (Z.to_nat k)) in Hrun
      by (intros; try apply Hfail; lia).
    destruct (retry_loop_waits F opts ctx n d _ (1 + Z.of_nat (Z.to_nat k))
                (extend w (failed_attempts ctx d 1 (Z.to_nat k)))
                eq_refl ltac:(lia))
      as (evs' & Hrun' & _ & Hhead).
    destruct Hhead as (rest & ->); [lia |].
    rewrite Hrun', extend_extend in Hrun. apply extend_inj in Hrun. subst evs.
    destruct (Z.to_nat k) as [| k'] eqn:Hk'; [lia |].
    rewrite failed_attempts_last, <- app_assoc. simpl.
    exists (failed_attempts ctx d 1 k'), rest. split.
    + do 4 f_equal. lia.
    + rewrite (proj1 (count_failed_attempts ctx d 1 k')). lia.
Qed.

Lemma settlePaymentInBackground_backoff_witness :
  1 <= 2 < 3
  /\ exists evs before after,
       snd (settlePaymentInBackground Double.always_fails
              {| asyncSettlement := Some (Double.async_options (Some 3)) |}
              Double.context Double.world0)
         = extend Double.world0 evs
       /\ evs = before
                ++ EvSettle (payment Double.context) (requirements Double.context)
                   :: EvSleep 2000
                   :: EvSettle (payment Double.context) (requirements Double.context)
                   :: after.
Proof.
  assert (Hk : 1 <= 2 < 3) by lia.
  split; [exact Hk |].
  destruct (settlePaymentInBackground_backoff Double.always_fails
              {| asyncSettlement := Some (Double.async_options (Some 3)) |}
              Double.context Double.world0)
    as (evs & Hrun & _ & Hfailed).
  destruct (Hfailed 2 Hk (fun i _ => eq_refl))
    as (before & after & Hevs & _).
  by exists evs, before, after.
Defined.

(** *** The HTTP adapter *)

(** What [ensurePayment] returns as [settle] is the closure [settlePayment]
    over the verified context. *)
Lemma ensurePayment_settle_closure
    (X : Externals) (F : Facilitator) (opts : PaymentPlugin.PaymentPluginOptions)
    (request : Request) (config : PaymentPlugin.EnsurePaymentConfig)
    (w w' : World) p r settle :
  PaymentPlugin.ensurePayment X F opts request config w
    = (Returns (PaymentPlugin.PaymentSuccessResult p r settle), w') ->
  exists msgs reqs context,
    settle = PaymentPlugin.settlePayment X F opts msgs reqs context
    /\ payment context = p /\ requirements context = r.
Proof.
  unfold PaymentPlugin.ensurePayment.
  destruct (createPaymentRequirements _ _ _ _ _ _) as [[req | failure] | e];
    try discriminate.
  destruct (falsy_string _); try discriminate.
  unfold mbind, M_bind, bind.
  destruct (verifyPayment _ _ _ _ _) as [[[context | failure] | e] w1];
    try discriminate.
  intros [= <- <- <- <-]. by eexists _, _, _.
Qed.

(** C5. The [settle] closure, called with a response whose status is 400 or
    more, returns [ok] with that very response (status, headers and body
    as they were) and leaves the world as it was: no settlement is
    attempted, in either mode, whatever context the closure was made
    for. *)
Theorem settle_short_circuits
    (X : Externals) (F : Facilitator) (opts : PaymentPlugin.PaymentPluginOptions)
    (msgs : ErrorMessages) (reqs : list PaymentRequirements)
    (ctx : PaymentContext) (response : Response) (w : World) :
  400 <= status response ->
  PaymentPlugin.settlePayment X F opts msgs reqs ctx response w
    = (Returns {| PaymentPlugin.ok := true;
                  PaymentPlugin.response := response |}, w).
Proof.
  intros Hstatus. unfold PaymentPlugin.settlePayment.
  by rewrite (proj2 (Z.leb_le 400 (status response)) Hstatus).
Qed.

Lemma settle_short_circuits_witness :
  400 <= status (Double.handler_response 500)
  /\ PaymentPlugin.settlePayment Double.strict_externals Double.always_fails
       Double.async_plugin empty_messages [Double.requirement]
       Double.context (Double.handler_response 500) Double.world0
     = (Returns {| PaymentPlugin.ok := true;
                   PaymentPlugin.response := Double.handler_response 500 |},
        Double.world0)
  /\ PaymentPlugin.settlePayment Double.strict_externals Double.always_fails
       Double.sync_plugin empty_messages [Double.requirement]
       Double.context (Double.handler_response 500) Double.world0
     = (Returns {| PaymentPlugin.ok := true;
                   PaymentPlugin.response := Double.handler_response 500 |},
        Double.world0).
Proof.
  assert (Hstatus : 400 <= status (Double.handler_response 500))
    by (by vm_compute).
  split; [exact Hstatus |]. split.
  - exact (settle_short_circuits Double.strict_externals Double.always_fails
             Double.async_plugin empty_messages [Double.requirement]
             Double.context (Double.handler_response 500) Double.world0
             Hstatus).
  - exact (settle_short_circuits Double.strict_externals Double.always_fails
             Double.sync_plugin empty_messages [Double.requirement]
             Double.context (Double.handler_response 500) Double.world0
             Hstatus).
Defined.




(** ** Further properties *)

(** *** The requirement builder, continued *)

Lemma obj_get_set_eq (k : string) (v : js_value) (o : list (string * js_value)) :
  obj_get k (obj_set k v o) = Some v.
Proof.
  induction o as [| [k' v'] o IH]; simpl.
  - by rewrite String.eqb_refl.
  - destruct (String.eqb k k') eqn:Hk; simpl.
    + by rewrite String.eqb_refl.
    + by rewrite Hk.
Qed.

Lemma obj_get_set_ne (k k' : string) (v : js_value)
    (o : list (string * js_value)) :
  k <> k' -> obj_get k' (obj_set k v o) = obj_get k' o.
Proof.
  intros Hne. induction o as [| [k0 v0] o IH]; simpl.
  - by rewrite (proj2 (String.eqb_neq k' k)).
  - destruct (String.eqb k k0) eqn:Hk; simpl.
    + apply String.eqb_eq in Hk. subst k0.
      by rewrite (proj2 (String.eqb_neq k' k)).
    + by rewrite IH.
Qed.

(** Reading a member of [{...target, ...source}]: the last member of
    [source] with that key, and the member of [target] when [source] has
    none. *)
Lemma obj_get_spread (k : string) (source target : list (string * js_value)) :
  obj_get k (obj_spread target source)
    = match obj_get k (rev source) with
      | Some v => Some v
      | None => obj_get k target
      end.
Proof.
  unfold obj_spread. revert target.
  induction source as [| [k0 v0] source IH] using rev_ind; intros target.
  - reflexivity.
  - rewrite fold_left_app, rev_unit. simpl.
    destruct (String.eqb k k0) eqn:Hk.
    + apply String.eqb_eq in Hk. subst k0. apply obj_get_set_eq.
    + rewrite obj_get_set_ne; [apply IH |].
      intros ->. by rewrite String.eqb_refl in Hk.
Qed.

(** X1. What [createPaymentRequirements] gives, case by case: a failure
    it returns has the code [PRICE_PROCESSING_ERROR] or
    [UNSUPPORTED_NETWORK], no details and no requirements list; a
    requirement it returns comes from a converted price on a supported
    network, with [payTo] and [asset] the normalised recipient and asset
    address; and it throws only what price processing or [getAddress]
    threw. *)
Theorem createPaymentRequirements_outcomes
    (X : Externals) (config : PaymentServerConfig) (request : Request)
    (price : Price) (resource_arg : option string)
    (additionalConfig : option PaymentMiddlewareConfig) :
  match createPaymentRequirements X config request price resource_arg
          additionalConfig with
  | Returns (inr failure) =>
      (code (pf_error failure) = "PRICE_PROCESSING_ERROR"
       \/ code (pf_error failure) = "UNSUPPORTED_NETWORK")
      /\ details (pf_error failure) = None
      /\ pf_requirements failure = None
  | Returns (inl r) =>
      exists amount,
        processPriceToAtomicAmount X price (server_network config)
          = Returns (inr amount)
        /\ server_network config ∈ SupportedEVMNetworks X
        /\ getAddress X (recipient config) = Returns (payTo r)
        /\ getAddress X (asset_address (aa_asset amount)) = Returns (asset r)
        /\ maxAmountRequired r = aa_maxAmountRequired amount
        /\ extra r = asset_eip712 (aa_asset amount)
        /\ scheme r = "exact"
        /\ network r = server_network config
  | Throws e =>
      processPriceToAtomicAmount X price (server_network config) = Throws e
      \/ getAddress X (recipient config) = Throws e
      \/ exists amount,
           processPriceToAtomicAmount X price (server_network config)
             = Returns (inr amount)
           /\ getAddress X (asset_address (aa_asset amount)) = Throws e
  end.
Proof.
  unfold createPaymentRequirements.
  destruct (processPriceToAtomicAmount X price (server_network config))
    as [[err | amount] | e]; [by auto | | by left].
  destruct (existsb _ _) eqn:Hnet; simpl; [| by auto].
  apply supported_spec in Hnet.
  destruct (getAddress X (recipient config)) as [payTo_ | e] eqn:Hpay;
    [| by auto].
  destruct (getAddress X (asset_address (aa_asset amount)))
    as [asset_ | e] eqn:Hasset.
  - exists amount. by repeat split.
  - right. right. by exists amount.
Qed.

(** X2. A recipient, or an asset address, that [getAddress] rejects makes
    [createPaymentRequirements] throw that error, once the price has
    converted and the network is a supported one: no requirement with an
    address that is not normalised is returned. *)
Theorem createPaymentRequirements_malformed_address
    (X : Externals) (config : PaymentServerConfig) (request : Request)
    (price : Price) (resource_arg : option string)
    (additionalConfig : option PaymentMiddlewareConfig)
    (amount : AtomicAmount) (e : thrown) :
  processPriceToAtomicAmount X price (server_network config)
    = Returns (inr amount) ->
  server_network config ∈ SupportedEVMNetworks X ->
  getAddress X (recipient config) = Throws e
  \/ (exists p, getAddress X (recipient config) = Returns p)
     /\ getAddress X (asset_address (aa_asset amount)) = Throws e ->
  createPaymentRequirements X config request price resource_arg
    additionalConfig = Throws e.
Proof.
  intros Hprice Hnet Haddr. unfold createPaymentRequirements.
  rewrite Hprice. rewrite (proj2 (supported_spec _ _) Hnet). simpl.
  destruct Haddr as [-> | [[p ->] ->]]; reflexivity.
Qed.

Lemma createPaymentRequirements_malformed_address_witness :
  createPaymentRequirements Double.strict_externals Double.malformed_config
    (Double.request ∅) (PriceString "$0.001") None None
  = Throws (ErrorObj "Address is invalid").
Proof.
  apply (createPaymentRequirements_malformed_address Double.strict_externals
           Double.malformed_config (Double.request ∅) (PriceString "$0.001")
           None None
           {| aa_maxAmountRequired := "1000"; aa_asset := Double.usdc_base |}).
  - reflexivity.
  - apply supported_spec. by vm_compute.
  - left. reflexivity.
Defined.

(** X3. Leaving [additionalConfig] out is the same as passing the empty
    object, and an empty [resource] string is the same as no [resource]:
    both fall back, the resource to the request's URL. *)
Theorem createPaymentRequirements_fallbacks
    (X : Externals) (config : PaymentServerConfig) (request : Request)
    (price : Price) (resource_arg : option string)
    (additionalConfig : option PaymentMiddlewareConfig) :
  createPaymentRequirements X config request price resource_arg None
    = createPaymentRequirements X config request price resource_arg
        (Some empty_config)
  /\ createPaymentRequirements X config request price (Some "") additionalConfig
     = createPaymentRequirements X config request price None additionalConfig
  /\ forall r,
       createPaymentRequirements X config request price None additionalConfig
         = Returns (inl r) ->
       resource r = req_url request.
Proof.
  split; [reflexivity |]. split; [reflexivity |].
  intros r. unfold createPaymentRequirements.
  destruct (processPriceToAtomicAmount X price _) as [[err | amount] | e];
    try discriminate.
  destruct (negb _); try discriminate.
  destruct (getAddress X (recipient config)); try discriminate.
  destruct (getAddress X _); try discriminate.
  by intros [= <-].
Qed.

(** X4. In a built requirement the input schema holds [type: "http"], the
    request's method in upper case and [discoverable] (true unless
    configured), and each member of the configured [inputSchema] takes
    precedence over these. *)
Theorem createPaymentRequirements_input_schema
    (X : Externals) (config : PaymentServerConfig) (request : Request)
    (price : Price) (resource_arg : option string)
    (cfg : PaymentMiddlewareConfig) (r : PaymentRequirements) (k : string) :
  createPaymentRequirements X config request price resource_arg (Some cfg)
    = Returns (inl r) ->
  obj_get k (os_input (outputSchema r))
    = match obj_get k (rev (nullish (cfg_inputSchema cfg) [])) with
      | Some v => Some v
      | None =>
          obj_get k
            [("type", JStr "http");
             ("method", JStr (toUpperCase (req_method request)));
             ("discoverable", JBool (nullish (cfg_discoverable cfg) true))]
      end.
Proof.
  unfold createPaymentRequirements.
  destruct (processPriceToAtomicAmount X price _) as [[err | amount] | e];
    try discriminate.
  destruct (negb _); try discriminate.
  destruct (getAddress X (recipient config)); try discriminate.
  destruct (getAddress X _); try discriminate.
  intros [= <-]. simpl. apply obj_get_spread.
Qed.

Lemma createPaymentRequirements_input_schema_witness :
  obj_get "method" (os_input (outputSchema Double.requirement))
  = Some (JStr "POST").
Proof.
  apply (createPaymentRequirements_input_schema Double.externals
           Double.server_config (Double.request ∅) (PriceString "$0.001")
           None empty_config Double.requirement "method").
  reflexivity.
Defined.

(** *** The proof verifier, continued *)

(** X5. [verifyPayment] always returns, after at most one facilitator
    [verify] call and nothing else.  A failure carries the one-element
    requirements list and one of the four verification codes; a success
    carries a context whose verification is valid, whose requirement is
    the one matched to its payment, and the one [verify] call was made on
    that payment and requirement. *)
Theorem verifyPayment_outcomes
    (X : Externals) (F : Facilitator) (token : string)
    (reqs : PaymentRequirements) (w : World) :
  exists result evs,
    verifyPayment X F token reqs w = (Returns result, extend w evs)
    /\ (evs = [] \/ exists p r, evs = [EvVerify p r])
    /\ match result with
       | PaymentFailed failure =>
           pf_requirements failure = Some [reqs]
           /\ code (pf_error failure)
              ∈ ["INVALID_PAYMENT"; "NO_MATCHING_REQUIREMENTS";
                 "VERIFICATION_FAILED"; "VERIFICATION_ERROR"]
       | PaymentSuccess context =>
           isValid (verification context) = true
           /\ findMatchingPaymentRequirements X [reqs] (payment context)
              = Some (requirements context)
           /\ evs = [EvVerify (payment context) (requirements context)]
       end.
Proof.
  unfold verifyPayment.
  destruct (decodePayment X token) as [decoded | e].
  2: { eexists _, []. rewrite extend_nil. split; [reflexivity |].
       split; [by left |]. simpl. split; [done | set_solver]. }
  destruct (findMatchingPaymentRequirements X [reqs] _) as [sel |] eqn:Hsel.
  2: { eexists _, []. rewrite extend_nil. split; [reflexivity |].
       split; [by left |]. simpl. split; [done | set_solver]. }
  unfold try_catch, mbind, M_bind, bind, facilitator_verify.
  rewrite emit_extend.
  destruct (verify F _ _ _) as [v | e]; [destruct (isValid v) eqn:Hv |]; simpl.
  all: rewrite ?Hv; simpl.
  all: eexists _, _; split; [reflexivity |]; split; [right; by eexists _, _ |].
  all: simpl; first [by repeat split | split; [done | set_solver]].
Qed.

(** X6. Once the token has decoded and matched a requirement, the
    facilitator's answer decides: a valid verification gives the context
    of the payment with version 1, the matched requirement and that
    verification; an invalid one gives [VERIFICATION_FAILED] with the
    facilitator's reason (or the default text) and the payer as detail; a
    throw gives [VERIFICATION_ERROR] with the error's message.  In each
    case exactly one [verify] call was made. *)
Theorem verifyPayment_facilitator_answer
    (X : Externals) (F : Facilitator) (token : string)
    (reqs selected : PaymentRequirements) (w : World)
    (decoded : PaymentPayload) :
  decodePayment X token = Returns decoded ->
  findMatchingPaymentRequirements X [reqs] (set_x402Version decoded 1)
    = Some selected ->
  let forced := set_x402Version decoded 1 in
  snd (verifyPayment X F token reqs w) = extend w [EvVerify forced selected]
  /\ fst (verifyPayment X F token reqs w)
     = Returns
         match verify F (count is_verify (trace w)) forced selected with
         | Returns v =>
             if isValid v then
               PaymentSuccess {| payment := forced;
                                 requirements := selected;
                                 verification := v |}
             else
               PaymentFailed
                 {| pf_error :=
                      {| code := "VERIFICATION_FAILED";
                         message := or_string (invalidReason v)
                                      "Payment verification failed";
                         details := Some [("payer", opt_str (vr_payer v))] |};
                    pf_requirements := Some [reqs] |}
         | Throws e =>
             PaymentFailed
               {| pf_error :=
                    {| code := "VERIFICATION_ERROR";
                       message := error_message_or e "Verification failed";
                       details := None |};
                  pf_requirements := Some [reqs] |}
         end.
Proof.
  intros Hdec Hsel forced. unfold verifyPayment. rewrite Hdec.
  change (set_x402Version decoded X402_VERSION) with forced.
  fold forced in Hsel. rewrite Hsel.
  unfold try_catch, mbind, M_bind, bind, facilitator_verify.
  rewrite emit_extend.
  by destruct (verify F _ _ _) as [v | e]; [destruct (isValid v) |].
Qed.

Lemma verifyPayment_facilitator_answer_witness :
  exists failure,
    fst (verifyPayment Double.externals Double.rejects_all "token-v2"
           Double.requirement Double.world0)
      = Returns (PaymentFailed failure)
    /\ code (pf_error failure) = "VERIFICATION_FAILED"
    /\ message (pf_error failure) = "insufficient_funds".
Proof.
  eexists. split.
  - apply (verifyPayment_facilitator_answer Double.externals Double.rejects_all
             "token-v2" Double.requirement Double.requirement Double.world0
             {| x402Version := 2; pp_scheme := "exact";
                pp_network := "base"; pp_payload := JObj [] |});
      reflexivity.
  - split; reflexivity.
Defined.

(** *** The settlement engine, continued *)

(** X7. The synchronous [settlePayment] never throws and calls the
    facilitator's [settle] exactly once.  It hands on what the facilitator
    answered, with no error text, also when the answer says
    [success: false]; when the call threw, it reports [success: false]
    with the error's message, or [Settlement failed] for a thrown value
    that is not an [Error]. *)
Theorem settlePayment_never_throws
    (F : Facilitator) (ctx : PaymentContext) (w : World) :
  exists r,
    settlePayment F ctx w = (Returns r, extend w [settle_event ctx])
    /\ match settle F (count is_settle (trace w)) (payment ctx)
               (requirements ctx) with
       | Returns s =>
           success r = s_success s
           /\ transaction r = s_transaction s
           /\ sr_network r = s_network s
           /\ payer r = s_payer s
           /\ sr_error r = None
       | Throws e =>
           success r = false
           /\ sr_error r = Some (error_message_or e "Settlement failed")
           /\ transaction r = None /\ sr_network r = None /\ payer r = None
       end.
Proof.
  exists (attempt_result F ctx w 1). split; [apply settlePayment_run |].
  unfold attempt_result.
  replace (count is_settle (trace w) + Z.to_nat (1 - 1))%nat
    with (count is_settle (trace w)) by lia.
  by destruct (settle F _ _ _).
Qed.

Section Bounds.

Variable F : Facilitator.
Variable opts : PaymentProcessorOptions.
Variable ctx : PaymentContext.
Variables n d : Z.

(** The events of one pass through the loop body, counted. *)
Lemma attempt_body_counts (attempt : Z) (w : World) :
  exists evs,
    snd (attempt_body F opts ctx n d attempt w) = extend w evs
    /\ count is_settle evs = 1%nat
    /\ count is_verify evs = 0%nat
    /\ match fst (attempt_body F opts ctx n d attempt w) with
       | Returns LoopNext =>
           attempt <> n
           /\ count is_sleep evs = 1%nat
           /\ count is_error_callback evs = 0%nat
       | Returns LoopReturn =>
           count is_sleep evs = 0%nat
           /\ (count is_error_callback evs <= 1)%nat
           /\ (count is_error_callback evs = 1%nat -> attempt = n)
       | Throws e =>
           count is_sleep evs = 0%nat
           /\ count is_error_callback evs = 1%nat
           /\ attempt = n
           /\ exists g err,
                asyncSettlement opts ≫= onSettlementError = Some g
                /\ g err = CbThrows e
       end.
Proof.
  rewrite attempt_body_run. unfold catch_block. simpl.
  set (r := attempt_result F ctx w 1).
  destruct (success r);
    [destruct (asyncSettlement opts ≫= onSettlementSuccess) as [f |];
       [destruct (f r) as [| e] |] |].
  all: try destruct (Z.eqb_spec attempt n) as [Heq | Hne].
  all: try destruct (asyncSettlement opts ≫= onSettlementError) as [g |] eqn:Hg.
  all: rewrite ?extend_extend; simpl.
  all: try match goal with
           | |- context [match ?cb ?e with CbReturns => _ | CbThrows _ => _ end] =>
               destruct (cb e) eqn:Hcb
           end.
  all: eexists; split; [reflexivity |]; simpl.
  all: rewrite ?count_cons, ?count_nil; simpl.
  all: repeat split; try done; try lia.
  all: by eexists _, _.
Qed.

(** The events of the loop from attempt [attempt] on, counted. *)
Lemma retry_loop_counts (m : nat) :
  forall (attempt : Z) (w : World),
    Z.to_nat (n + 1 - attempt) = m ->
    exists evs,
      snd (retry_loop F opts ctx n d attempt w) = extend w evs
      /\ (count is_settle evs <= m)%nat
      /\ count is_verify evs = 0%nat
      /\ (count is_error_callback evs <= 1)%nat
      /\ (count is_error_callback evs = 1%nat -> count is_settle evs = m)
      /\ (n < attempt -> evs = [])
      /\ (attempt <= n -> (count is_sleep evs < count is_settle evs)%nat)
      /\ (forall e,
            fst (retry_loop F opts ctx n d attempt w) = Throws e ->
            exists g err,
              asyncSettlement opts ≫= onSettlementError = Some g
              /\ g err = CbThrows e).
Proof.
  induction m as [| m IH]; intros attempt w Hm;
    rewrite retry_loop_step;
    destruct (Z.leb_spec attempt n) as [Hle | Hgt]; try lia.
  - exists []. rewrite extend_nil, !count_nil.
    split; [done |]. split; [lia |]. split; [done |]. split; [lia |].
    split; [done |]. split; [done |]. split; [lia | done].
  - destruct (attempt_body_counts attempt w)
      as (evs1 & Hrun1 & Hsettle1 & Hverify1 & Hexit).
    destruct (attempt_body F opts ctx n d attempt w) as [[[] | e] w1];
      simpl in Hrun1, Hexit; subst w1.
    + destruct Hexit as (Hsleep1 & Herr1 & Hlast).
      exists evs1. rewrite Hsettle1, Hverify1, Hsleep1. simpl.
      repeat split; try done; lia.
    + destruct Hexit as (Hne & Hsleep1 & Herr1).
      destruct (IH (attempt + 1) (extend w evs1))
        as (evs & Hrun & Hsettle & Hverify & Herr & Hfull & _ & Hsleep & Hthrow);
        [lia |].
      exists (evs1 ++ evs). rewrite Hrun, extend_extend, !count_app.
      rewrite Hsettle1, Hverify1, Hsleep1, Herr1. simpl.
      split; [done |]. split; [lia |]. split; [done |]. split; [done |].
      split; [intros H; specialize (Hfull H); lia |].
      split; [lia |]. split; [| done].
      intros _. assert (attempt + 1 <= n) as Hnext%Hsleep by lia. lia.
    + destruct Hexit as (Hsleep1 & Herr1 & Hlast & Hcb).
      exists evs1. rewrite Hsettle1, Hverify1, Hsleep1, Herr1. simpl.
      repeat split; try done; try lia.
      by intros e' [= <-].
Qed.

Lemma total_wait_app (a b : list Event) :
  total_wait (a ++ b) = total_wait a + total_wait b.
Proof.
  induction a as [| e a IH]; [done |].
  destruct e; simpl; rewrite IH; lia.
Qed.

Lemma total_wait_quiet (mid : list Event) :
  forallb quiet mid = true -> total_wait mid = 0.
Proof.
  induction mid as [| e mid IH]; [done |].
  simpl. intros [He Hmid]%andb_prop.
  destruct e; try discriminate; by apply IH.
Qed.

Lemma total_wait_failed_attempts (attempt : Z) (k : nat) :
  2 * total_wait (failed_attempts ctx d attempt k)
    = d * Z.of_nat k * (2 * attempt + Z.of_nat k - 1).
Proof.
  revert attempt. induction k as [| k IH]; intros attempt.
  - simpl. lia.
  - change (failed_attempts ctx d attempt (S k))
      with (settle_event ctx :: EvSleep (d * attempt)
            :: failed_attempts ctx d (attempt + 1) k).
    unfold settle_event. simpl total_wait.
    rewrite Z.mul_add_distr_l, IH. nia.
Qed.

End Bounds.

(** X8. Whatever the facilitator and the callbacks do, the background
    task calls the facilitator's [settle] at most [maxRetries] times (not
    at all when [maxRetries] is below 1) and never its [verify]; it waits
    fewer times than it attempts; it calls [onSettlementError] at most
    once, and then only after [maxRetries] attempts; and its promise
    rejects only with what [onSettlementError] threw. *)
Theorem settlePaymentInBackground_bounds
    (F : Facilitator) (opts : PaymentProcessorOptions) (ctx : PaymentContext)
    (w : World) :
  let n := nullish (asyncSettlement opts ≫= maxRetries) 3 in
  exists evs,
    snd (settlePaymentInBackground F opts ctx w) = extend w evs
    /\ Z.of_nat (count is_settle evs) <= Z.max 0 n
    /\ count is_verify evs = 0%nat
    /\ (count is_error_callback evs <= 1)%nat
    /\ (count is_error_callback evs = 1%nat ->
        Z.of_nat (count is_settle evs) = n)
    /\ (n < 1 -> evs = [])
    /\ (1 <= n -> (count is_sleep evs < count is_settle evs)%nat)
    /\ (forall e,
          fst (settlePaymentInBackground F opts ctx w) = Throws e ->
          exists g err,
            asyncSettlement opts ≫= onSettlementError = Some g
            /\ g err = CbThrows e).
Proof.
  intros n. unfold settlePaymentInBackground. fold n.
  destruct (retry_loop_counts F opts ctx n
              (nullish (asyncSettlement opts ≫= retryDelay) 1000)
              _ 1 w eq_refl)
    as (evs & Hrun & Hsettle & Hverify & Herr & Hfull & Hnone & Hsleep & Hthrow).
  exists evs. split; [done |]. split; [lia |]. split; [done |].
  split; [done |]. split; [| done].
  intros H. specialize (Hfull H).
  destruct (Z.le_gt_cases 1 n) as [Hn | Hn]; [lia |].
  rewrite (Hnone ltac:(lia)), count_nil in H. discriminate.
Qed.

Lemma settlePaymentInBackground_bounds_witness :
  fst (settlePaymentInBackground Double.always_fails
         Double.error_throwing_options Double.context Double.world0)
    = Throws (ErrorObj "Settlement failed")
  /\ exists g err,
       asyncSettlement Double.error_throwing_options ≫= onSettlementError
         = Some g
       /\ g err = CbThrows (ErrorObj "Settlement failed").
Proof.
  split; [reflexivity |].
  destruct (settlePaymentInBackground_bounds Double.always_fails
              Double.error_throwing_options Double.context Double.world0)
    as (evs & _ & _ & _ & _ & _ & _ & _ & Hthrow).
  apply Hthrow. reflexivity.
Defined.

(** X9. With asynchronous settlement enabled, [settlePaymentAsync] always
    returns, whatever the background task and the callbacks do: the
    response it returns is the given one with [X-Payment-Status] set to
    the encoded JSON of [{status: "pending_settlement"}], its status, body
    and other headers untouched, and the effects are those of the
    background task. *)
Theorem settlePaymentAsync_deferred
    (X : Externals) (F : Facilitator) (opts : PaymentProcessorOptions)
    (ctx : PaymentContext) (response : Response) (w : World) :
  async_enabled (asyncSettlement opts) = true ->
  exists response',
    settlePaymentAsync X F opts ctx response w
      = (Returns response', snd (settlePaymentInBackground F opts ctx w))
    /\ status response' = status response
    /\ body response' = body response
    /\ headers_get "X-Payment-Status" (headers response')
       = Some (safeBase64Encode X
                 (JSON_stringify X
                    (JObj [("status", JStr "pending_settlement")])))
    /\ forall name,
         toLowerCase name <> "x-payment-status" ->
         headers_get name (headers response')
           = headers_get name (headers response).
Proof.
  intros Hasync. unfold settlePaymentAsync. rewrite Hasync. simpl.
  eexists. split; [reflexivity |]. simpl.
  split; [done |]. split; [done |].
  unfold headers_get, headers_set. split.
  - by rewrite lookup_insert_eq.
  - intros name Hname. by rewrite lookup_insert_ne.
Qed.

Lemma settlePaymentAsync_deferred_witness :
  exists response',
    fst (settlePaymentAsync Double.externals Double.always_fails
           Double.error_throwing_options Double.context
           (Double.handler_response 200) Double.world0)
      = Returns response'
    /\ headers_get "x-payment-status" (headers response')
       = Some "base64({status:pending_settlement})".
Proof.
  destruct (settlePaymentAsync_deferred Double.externals Double.always_fails
              Double.error_throwing_options Double.context
              (Double.handler_response 200) Double.world0 eq_refl)
    as (response' & Hrun & _ & _ & Hheader & _).
  exists response'. split; [by rewrite Hrun | exact Hheader].
Defined.

(** X10. When all [maxRetries] = n >= 1 attempts fail, the background
    task has made n attempts and its waits add up to
    [retryDelay] * n * (n - 1) / 2 milliseconds, whatever the callbacks
    do. *)
Theorem settlePaymentInBackground_total_wait
    (F : Facilitator) (opts : PaymentProcessorOptions) (ctx : PaymentContext)
    (w : World) :
  let n := nullish (asyncSettlement opts ≫= maxRetries) 3 in
  let d := nullish (asyncSettlement opts ≫= retryDelay) 1000 in
  1 <= n ->
  (forall i, 1 <= i <= n -> success (attempt_result F ctx w i) = false) ->
  exists evs,
    snd (settlePaymentInBackground F opts ctx w) = extend w evs
    /\ Z.of_nat (count is_settle evs) = n
    /\ 2 * total_wait evs = d * n * (n - 1).
Proof.
  intros n d Hn Hfail. unfold settlePaymentInBackground. fold n d.
  rewrite (retry_loop_failed_attempts F opts ctx n d (Z.to_nat (n - 1)))
    by (intros; try apply Hfail; lia).
  replace (1 + Z.of_nat (Z.to_nat (n - 1))) with n by lia.
  rewrite retry_loop_step, (proj2 (Z.leb_le n n)) by lia.
  destruct (attempt_body_events F opts ctx n d n
              (extend w (failed_attempts ctx d 1 (Z.to_nat (n - 1)))))
    as (mid & Hquiet & [(Hne & _) | (exit & Hexit & ->)]); [done |].
  exists (failed_attempts ctx d 1 (Z.to_nat (n - 1)) ++ settle_event ctx :: mid).
  split.
  { rewrite <- extend_extend. by destruct exit as [[] | e]. }
  rewrite count_app, count_cons, total_wait_app.
  rewrite (proj1 (count_failed_attempts ctx d 1 _)).
  unfold settle_event at 2. simpl total_wait.
  rewrite (total_wait_quiet mid Hquiet).
  assert (Hmid : count is_settle mid = 0%nat).
  { clear -Hquiet. induction mid as [| e mid IH]; [done |].
    simpl in Hquiet. apply andb_prop in Hquiet as [He Hmid].
    rewrite count_cons, (IH Hmid). by destruct e. }
  rewrite Hmid. simpl. split; [lia |].
  pose proof (total_wait_failed_attempts ctx d 1 (Z.to_nat (n - 1))) as Htotal.
  rewrite Z2Nat.id in Htotal by lia. nia.
Qed.

Lemma settlePaymentInBackground_total_wait_witness :
  exists evs,
    snd (settlePaymentInBackground Double.always_fails
           {| asyncSettlement := Some (Double.async_options None) |}
           Double.context Double.world0)
      = extend Double.world0 evs
    /\ 2 * total_wait evs = 1000 * 3 * (3 - 1).
Proof.
  assert (Hn : 1 <= 3) by lia.
  destruct (settlePaymentInBackground_total_wait Double.always_fails
              {| asyncSettlement := Some (Double.async_options None) |}
              Double.context Double.world0 Hn (fun i _ => eq_refl))
    as (evs & Hrun & _ & Htotal).
  by exists evs.
Defined.

(** X11. When an attempt before the last one settles the payment and
    [onSettlementSuccess] throws, the task waits and calls the
    facilitator's [settle] again for the same payment: here for the first
    attempt, with [maxRetries] at least 2. *)
Theorem settlePaymentInBackground_settles_again
    (F : Facilitator) (opts : PaymentProcessorOptions) (ctx : PaymentContext)
    (w : World) (f : SettlementResult -> callback_result) (e : thrown) :
  let n := nullish (asyncSettlement opts ≫= maxRetries) 3 in
  let d := nullish (asyncSettlement opts ≫= retryDelay) 1000 in
  2 <= n ->
  success (attempt_result F ctx w 1) = true ->
  asyncSettlement opts ≫= onSettlementSuccess = Some f ->
  f (attempt_result F ctx w 1) = CbThrows e ->
  exists rest,
    snd (settlePaymentInBackground F opts ctx w)
      = extend w (settle_event ctx
                  :: EvSettlementSuccess (attempt_result F ctx w 1)
                  :: EvSleep d
                  :: settle_event ctx :: rest).
Proof.
  intros n d Hn Hok Hf Hthrows. unfold settlePaymentInBackground. fold n d.
  rewrite retry_loop_step, (proj2 (Z.leb_le 1 n)) by lia.
  rewrite attempt_body_run. simpl. rewrite Hok, Hf, Hthrows.
  unfold catch_block. rewrite (proj2 (Z.eqb_neq 1 n)) by lia.
  rewrite extend_extend. simpl.
  destruct (retry_loop_waits F opts ctx n d _ (1 + 1)
              (extend w [settle_event ctx;
                         EvSettlementSuccess (attempt_result F ctx w 1);
                         EvSleep (d * 1)])
              eq_refl ltac:(lia))
    as (evs & Hrun & _ & Hhead).
  destruct Hhead as (rest & ->); [lia |].
  exists rest. rewrite Hrun, extend_extend. simpl. by rewrite Z.mul_1_r.
Qed.

Lemma settlePaymentInBackground_settles_again_witness :
  exists rest,
    snd (settlePaymentInBackground (Double.fails_first 0)
           Double.throwing_options Double.context Double.world0)
      = extend Double.world0
          (settle_event Double.context
           :: EvSettlementSuccess (settlement_of (Returns Double.settled))
           :: EvSleep 1000
           :: settle_event Double.context :: rest).
Proof.
  assert (Hn : 2 <= 2) by lia.
  exact (settlePaymentInBackground_settles_again (Double.fails_first 0)
           Double.throwing_options Double.context Double.world0
           (fun _ => CbThrows (ErrorObj "boom")) (ErrorObj "boom")
           Hn eq_refl eq_refl eq_refl).
Defined.

(** *** The HTTP adapter, continued *)

(** X12. What [ensurePayment] gives, case by case.  A rejection has status
    402 or 500 and the JSON content type, after at most one facilitator
    [verify] call; an admission comes after exactly one [verify] call, on
    its payment (whose version is 1) and requirement; and [ensurePayment]
    throws only what building the requirement threw, before any
    facilitator call.  The facilitator's [settle] is never called. *)
Theorem ensurePayment_outcomes
    (X : Externals) (F : Facilitator) (opts : PaymentPlugin.PaymentPluginOptions)
    (request : Request) (config : PaymentPlugin.EnsurePaymentConfig)
    (w : World) :
  match PaymentPlugin.ensurePayment X F opts request config w with
  | (Returns (PaymentPlugin.PaymentFailureResult rejection), w') =>
      (status rejection = 402 \/ status rejection = 500)
      /\ headers rejection = PaymentPlugin.JSON_CONTENT_TYPE
      /\ (w' = w \/ exists p r, w' = extend w [EvVerify p r])
  | (Returns (PaymentPlugin.PaymentSuccessResult p r closure), w') =>
      w' = extend w [EvVerify p r] /\ x402Version p = 1
  | (Throws e, w') =>
      w' = w
      /\ createPaymentRequirements X PaymentPlugin.processor_config request
           (PaymentPlugin.ep_price config) (PaymentPlugin.ep_resource config)
           (Some (nullish (PaymentPlugin.ep_config config) empty_config))
         = Throws e
  end.
Proof.
  unfold PaymentPlugin.ensurePayment.
  destruct (createPaymentRequirements _ _ _ _ _ _) as [[req | failure] | e];
    [| simpl; by auto | simpl; by auto].
  destruct (falsy_string _); [simpl; by auto |].
  unfold mbind, M_bind, bind, verifyPayment.
  destruct (decodePayment X _) as [decoded | e]; [| simpl; by auto].
  destruct (findMatchingPaymentRequirements X [req] _) as [sel |];
    [| simpl; by auto].
  unfold try_catch, mbind, M_bind, bind, facilitator_verify.
  rewrite emit_extend.
  destruct (verify F _ _ _) as [v | e]; [destruct (isValid v) |]; simpl.
  - done.
  - split; [by left |]. split; [done |]. right. by eexists _, _.
  - split; [by left |]. split; [done |]. right. by eexists _, _.
Qed.

(** X13. When the requirement cannot be built, [ensurePayment] rejects
    with status 500 and a JSON body that holds the failure's message and
    code and no [accepts]; the facilitator is not called. *)
Theorem ensurePayment_build_failure
    (X : Externals) (F : Facilitator) (opts : PaymentPlugin.PaymentPluginOptions)
    (request : Request) (config : PaymentPlugin.EnsurePaymentConfig)
    (w : World) (failure : PaymentFailure) :
  createPaymentRequirements X PaymentPlugin.processor_config request
    (PaymentPlugin.ep_price config) (PaymentPlugin.ep_resource config)
    (Some (nullish (PaymentPlugin.ep_config config) empty_config))
    = Returns (inr failure) ->
  PaymentPlugin.ensurePayment X F opts request config w
    = (Returns
         (PaymentPlugin.PaymentFailureResult
            {| status := 500;
               headers := PaymentPlugin.JSON_CONTENT_TYPE;
               body :=
                 JSON_stringify X
                   (JObj [("x402Version", JNum 1);
                          ("error", JStr (message (pf_error failure)));
                          ("code", JStr (code (pf_error failure)))]) |}),
       w).
Proof.
  intros Hbuilt. unfold PaymentPlugin.ensurePayment. by rewrite Hbuilt.
Qed.

Lemma ensurePayment_build_failure_witness :
  exists rejection,
    PaymentPlugin.ensurePayment Double.externals Double.always_fails
      Double.sync_plugin Double.paid_request Double.bad_price_config
      Double.world0
      = (Returns (PaymentPlugin.PaymentFailureResult rejection), Double.world0)
    /\ status rejection = 500
    /\ body rejection
       = "{x402Version:1,error:Invalid price,code:PRICE_PROCESSING_ERROR}".
Proof.
  eexists. split.
  - apply (ensurePayment_build_failure Double.externals Double.always_fails
             Double.sync_plugin Double.paid_request Double.bad_price_config
             Double.world0 (build_error "PRICE_PROCESSING_ERROR" "Invalid price")).
    reflexivity.
  - split; reflexivity.
Defined.

(** The background task only adds events, none of them a [verify] call. *)
Lemma settlePaymentInBackground_run_events
    (F : Facilitator) (opts : PaymentProcessorOptions) (ctx : PaymentContext)
    (w : World) :
  exists evs,
    snd (settlePaymentInBackground F opts ctx w) = extend w evs
    /\ count is_verify evs = 0%nat.
Proof.
  unfold settlePaymentInBackground.
  destruct (retry_loop_counts F opts ctx
              (nullish (asyncSettlement opts ≫= maxRetries) 3)
              (nullish (asyncSettlement opts ≫= retryDelay) 1000)
              _ 1 w eq_refl)
    as (evs & Hrun & _ & Hverify & _).
  by exists evs.
Qed.

(** X16. [ensurePayment] reads only the price, the resource and the
    middleware configuration of its route configuration: two route
    configurations that agree on these give the same result, whatever
    their [payTo], [network] and [method]. *)
Theorem ensurePayment_ignores_recipient
    (X : Externals) (F : Facilitator) (opts : PaymentPlugin.PaymentPluginOptions)
    (request : Request) (config config' : PaymentPlugin.EnsurePaymentConfig)
    (w : World) :
  PaymentPlugin.ep_price config = PaymentPlugin.ep_price config' ->
  PaymentPlugin.ep_resource config = PaymentPlugin.ep_resource config' ->
  PaymentPlugin.ep_config config = PaymentPlugin.ep_config config' ->
  PaymentPlugin.ensurePayment X F opts request config w
    = PaymentPlugin.ensurePayment X F opts request config' w.
Proof.
  intros Hprice Hresource Hconfig. unfold PaymentPlugin.ensurePayment.
  by rewrite Hprice, Hresource, Hconfig.
Qed.

Lemma ensurePayment_ignores_recipient_witness :
  PaymentPlugin.ensurePayment Double.externals Double.always_fails
    Double.sync_plugin Double.unpaid_request Double.ensure_config Double.world0
  = PaymentPlugin.ensurePayment Double.externals Double.always_fails
      Double.sync_plugin Double.unpaid_request Double.other_recipient_config
      Double.world0.
Proof.
  apply (ensurePayment_ignores_recipient Double.externals Double.always_fails
           Double.sync_plugin Double.unpaid_request Double.ensure_config
           Double.other_recipient_config Double.world0);
    reflexivity.
Defined.

(** X17. The plugin's processor has the empty string for its recipient.
    Where [getAddress] rejects the empty string, [ensurePayment] throws
    that error for every request and route whose price converts (the
    network [base] being supported), before any facilitator call. *)
Theorem ensurePayment_empty_recipient
    (X : Externals) (F : Facilitator) (opts : PaymentPlugin.PaymentPluginOptions)
    (request : Request) (config : PaymentPlugin.EnsurePaymentConfig)
    (w : World) (amount : AtomicAmount) (e : thrown) :
  getAddress X "" = Throws e ->
  "base" ∈ SupportedEVMNetworks X ->
  processPriceToAtomicAmount X (PaymentPlugin.ep_price config) "base"
    = Returns (inr amount) ->
  PaymentPlugin.ensurePayment X F opts request config w = (Throws e, w).
Proof.
  intros Haddr Hnet Hprice.
  unfold PaymentPlugin.ensurePayment, createPaymentRequirements.
  change (server_network PaymentPlugin.processor_config) with "base".
  change (recipient PaymentPlugin.processor_config) with "".
  rewrite Hprice, (proj2 (supported_spec _ _) Hnet). simpl.
  by rewrite Haddr.
Qed.

Lemma ensurePayment_empty_recipient_witness :
  PaymentPlugin.ensurePayment Double.strict_externals Double.always_fails
    Double.sync_plugin Double.paid_request Double.ensure_config Double.world0
  = (Throws (ErrorObj "Address is invalid"), Double.world0).
Proof.
  apply (ensurePayment_empty_recipient Double.strict_externals
           Double.always_fails Double.sync_plugin Double.paid_request
           Double.ensure_config Double.world0
           {| aa_maxAmountRequired := "10000"; aa_asset := Double.usdc_base |}).
  - reflexivity.
  - apply supported_spec. by vm_compute.
  - reflexivity.
Defined.

(** X19. In synchronous mode, for a response with a status below 400, the
    [settle] closure makes one settlement attempt.  After a successful one
    it answers with the response that [addSettlementHeaders] gives, so
    that the adapter's [X-PAYMENT-RESPONSE] and the processor's
    [X-Payment-Response] are one header with one value; after a failed
    one it answers with the handler's response as it was. *)
Theorem settle_synchronous_headers
    (X : Externals) (F : Facilitator) (opts : PaymentPlugin.PaymentPluginOptions)
    (msgs : ErrorMessages) (reqs : list PaymentRequirements)
    (ctx : PaymentContext) (response : Response) (w : World) :
  async_enabled (PaymentPlugin.plugin_asyncSettlement opts) = false ->
  status response < 400 ->
  let result := attempt_result F ctx w 1 in
  PaymentPlugin.settlePayment X F opts msgs reqs ctx response w
    = (Returns {| PaymentPlugin.ok := true;
                  PaymentPlugin.response :=
                    if success result
                    then addSettlementHeaders X response result
                    else response |},
       extend w [settle_event ctx]).
Proof.
  intros Hsync Hstatus result.
  unfold PaymentPlugin.settlePayment.
  rewrite (proj2 (Z.leb_gt 400 (status response)) Hstatus), Hsync.
  unfold try_catch, mbind, M_bind, bind. rewrite settlePayment_run.
  fold result. unfold addSettlementHeaders. by destruct (success result).
Qed.

Lemma settle_synchronous_headers_witness :
  exists response',
    fst (PaymentPlugin.settlePayment Double.externals (Double.fails_first 0)
           Double.sync_plugin empty_messages [Double.plugin_requirement]
           Double.verified_context (Double.handler_response 200)
           Double.world0)
      = Returns {| PaymentPlugin.ok := true;
                   PaymentPlugin.response := response' |}
    /\ headers_get "X-Payment-Response" (headers response')
       = Some "base64({success:true,transaction:0xabc,network:base,payer:0x1234})".
Proof.
  assert (Hstatus : status (Double.handler_response 200) < 400)
    by (by vm_compute).
  eexists. split.
  - rewrite (settle_synchronous_headers Double.externals (Double.fails_first 0)
               Double.sync_plugin empty_messages [Double.plugin_requirement]
               Double.verified_context (Double.handler_response 200)
               Double.world0 eq_refl Hstatus).
    reflexivity.
  - by vm_compute.
Defined.

(** X20. In asynchronous mode, for a response with a status below 400, the
    [settle] closure answers [ok] with the handler's response marked
    [X-Payment-Status] pending, and what it does is what the background
    task does: the outcome of the settlement is in neither the answer nor
    the response. *)
Theorem settle_asynchronous
    (X : Externals) (F : Facilitator) (opts : PaymentPlugin.PaymentPluginOptions)
    (msgs : ErrorMessages) (reqs : list PaymentRequirements)
    (ctx : PaymentContext) (response : Response) (w : World) :
  async_enabled (PaymentPlugin.plugin_asyncSettlement opts) = true ->
  status response < 400 ->
  PaymentPlugin.settlePayment X F opts msgs reqs ctx response w
    = (Returns {| PaymentPlugin.ok := true;
                  PaymentPlugin.response :=
                    response_set_header "X-Payment-Status"
                      (safeBase64Encode X
                         (JSON_stringify X
                            (JObj [("status", JStr "pending_settlement")])))
                      response |},
       snd (settlePaymentInBackground F (PaymentPlugin.processor_options opts)
              ctx w)).
Proof.
  intros Hasync Hstatus. unfold PaymentPlugin.settlePayment.
  rewrite (proj2 (Z.leb_gt 400 (status response)) Hstatus), Hasync.
  unfold try_catch, mbind, M_bind, bind, settlePaymentAsync. simpl.
  by rewrite Hasync.
Qed.

Lemma settle_asynchronous_witness :
  exists response',
    fst (PaymentPlugin.settlePayment Double.externals Double.always_fails
           Double.async_plugin empty_messages [Double.plugin_requirement]
           Double.verified_context (Double.handler_response 200)
           Double.world0)
      = Returns {| PaymentPlugin.ok := true;
                   PaymentPlugin.response := response' |}
    /\ headers_get "X-Payment-Status" (headers response')
       = Some "base64({status:pending_settlement})".
Proof.
  assert (Hstatus : status (Double.handler_response 200) < 400)
    by (by vm_compute).
  eexists. split.
  - rewrite (settle_asynchronous Double.externals Double.always_fails
               Double.async_plugin empty_messages [Double.plugin_requirement]
               Double.verified_context (Double.handler_response 200)
               Double.world0 eq_refl Hstatus).
    reflexivity.
  - by vm_compute.
Defined.

(** *** The tool-invocation adapter *)

Lemma obj_get_set_meta (key k : string) (value : js_value)
    (result : PaidMcp.ToolResult) :
  obj_get k (nullish (PaidMcp.meta (PaidMcp.set_meta key value result)) [])
    = if String.eqb key k then Some value
      else obj_get k (nullish (PaidMcp.meta result) []).
Proof.
  unfold PaidMcp.set_meta. simpl.
  destruct (String.eqb key k) eqn:Hk.
  - apply String.eqb_eq in Hk. subst k. apply obj_get_set_eq.
  - apply obj_get_set_ne. intros ->. by rewrite String.eqb_refl in Hk.
Qed.

Section PaidToolProperties.

Variable X : Externals.
Variable F : Facilitator.
Variable config : PaymentServerConfig.
Variable opts : PaymentProcessorOptions.
Variable String_of : thrown -> string.
Variable TypeError_of : PaidMcp.primitive -> thrown.
Variables name description : string.
Variable price : js_value.
Variable cb : js_value -> PaidMcp.ToolExtra -> js_result PaidMcp.ToolAnswer.
Variable args : js_value.
Variable extra : PaidMcp.ToolExtra.
Variable requirement : PaymentRequirements.

(** The requirement of the tool has been built. *)
Hypothesis built :
  createPaymentRequirements X config PaidMcp.virtual_request
    (PriceNumber price) (Some ("mcp://tool/" +:+ name))
    (Some (PaidMcp.tool_config description))
  = Returns (inl requirement).

(** A call without a proof. *)
Lemma cbWithPayment_unpaid (w : World) :
  falsy_string (PaidMcp.extra_payment extra) = true ->
  PaidMcp.cbWithPayment X F config opts String_of TypeError_of name
    description price cb args extra w
  = (Returns
       (PaidMcp.AnswerObject
          (PaidMcp.error_result X
             (PaidMcp.rejection_object "_meta.x402/payment is required"
                requirement))),
     w).
Proof.
  intros Hfalsy. unfold PaidMcp.cbWithPayment. by rewrite built, Hfalsy.
Qed.

(** A call with a proof, up to the verification of the proof. *)
Lemma cbWithPayment_verified (w w' : World) (token : string)
    (result : PaymentResult) :
  PaidMcp.extra_payment extra = Some token ->
  token <> "" ->
  verifyPayment X F token requirement w = (Returns result, w') ->
  PaidMcp.cbWithPayment X F config opts String_of TypeError_of name
    description price cb args extra w
  = match result with
    | PaymentFailed failure =>
        (Returns
           (PaidMcp.AnswerObject
              (PaidMcp.error_result X (PaidMcp.failure_object failure))),
         w')
    | PaymentSuccess context =>
        match PaidMcp.run_tool String_of cb args extra with
        | (answer, true) => (Returns answer, w')
        | (PaidMcp.AnswerObject answer, false) =>
            if async_enabled (asyncSettlement opts) then
              (Returns
                 (PaidMcp.AnswerObject
                    (PaidMcp.set_meta "x402/payment-status"
                       (JStr "pending_settlement") answer)),
               snd (settlePaymentInBackground F opts context w'))
            else
              (Returns
                 (PaidMcp.AnswerObject
                    (if success (attempt_result F context w' 1) then
                       PaidMcp.set_meta "x402/payment-response"
                         (JObj [("success", JBool true);
                                ("transaction",
                                 opt_str
                                   (transaction
                                      (attempt_result F context w' 1)));
                                ("network",
                                 opt_str
                                   (sr_network
                                      (attempt_result F context w' 1)));
                                ("payer",
                                 opt_str
                                   (payer (attempt_result F context w' 1)))])
                         answer
                     else answer)),
               extend w' [settle_event context])
        | (PaidMcp.AnswerPrimitive p, false) =>
            if async_enabled (asyncSettlement opts) then
              (Throws (TypeError_of p), w')
            else
              (Returns
                 (if success (attempt_result F context w' 1)
                     && PaidMcp.truthy (PaidMcp.AnswerPrimitive p)
                  then
                    PaidMcp.AnswerObject
                      (PaidMcp.error_result X
                         (PaidMcp.rejection_object
                            ("Settlement failed: "
                             +:+ String_of (TypeError_of p))
                            requirement))
                  else PaidMcp.AnswerPrimitive p),
               extend w' [settle_event context])
        end
    end.
Proof.
  intros Hpayment Htoken Hverify. unfold PaidMcp.cbWithPayment.
  rewrite built, Hpayment.
  destruct token as [| c token]; [done |]. simpl.
  unfold mbind at 1. unfold M_bind, bind. rewrite Hverify.
  destruct result as [context | failure]; [| done].
  destruct (PaidMcp.run_tool String_of cb args extra) as [answer []];
    [by destruct answer |].
  simpl. destruct (async_enabled (asyncSettlement opts)) eqn:Hasync.
  - destruct answer as [answer | p]; [| done].
    unfold PaidMcp.mark, mbind, M_bind, bind, PaidMcp.detached,
      settlePaymentAsync.
    simpl. by rewrite Hasync.
  - unfold try_catch, mbind, M_bind, bind. rewrite settlePayment_run.
    destruct answer as [answer | p]; simpl.
    + rewrite andb_true_r. by destruct (success _).
    + by destruct (success _ && _).
Qed.

End PaidToolProperties.

(** X21. A tool call whose metadata holds no proof, or an empty one, is
    answered with an error-flagged result that carries
    [{x402Version: 1, error, accepts: [requirement]}]; the facilitator is
    not called, and the answer is the same whatever the tool's callback
    is: the callback is not run. *)
Theorem paidTool_requires_payment
    (X : Externals) (F : Facilitator) (config : PaymentServerConfig)
    (opts : PaymentProcessorOptions) (String_of : thrown -> string)
    (TypeError_of : PaidMcp.primitive -> thrown)
    (name description : string) (price : js_value)
    (cb : js_value -> PaidMcp.ToolExtra -> js_result PaidMcp.ToolAnswer)
    (args : js_value) (extra : PaidMcp.ToolExtra)
    (requirement : PaymentRequirements) (w : World) :
  createPaymentRequirements X config PaidMcp.virtual_request
    (PriceNumber price) (Some ("mcp://tool/" +:+ name))
    (Some (PaidMcp.tool_config description))
    = Returns (inl requirement) ->
  falsy_string (PaidMcp.extra_payment extra) = true ->
  exists rejection,
    (forall cb',
       PaidMcp.cbWithPayment X F config opts String_of TypeError_of name
         description price cb' args extra w
       = (Returns (PaidMcp.AnswerObject rejection), w))
    /\ PaidMcp.isError rejection = Some true
    /\ PaidMcp.structuredContent rejection
       = Some (JObj [("x402Version", JNum 1);
                     ("error", JStr "_meta.x402/payment is required");
                     ("accepts",
                      JArr [PaymentPlugin.requirement_object requirement])]).
Proof.
  intros Hbuilt Hfalsy. eexists. split.
  - intros cb'. by apply cbWithPayment_unpaid.
  - split; reflexivity.
Qed.

Lemma paidTool_requires_payment_witness :
  exists rejection,
    PaidMcp.cbWithPayment Double.tool_externals Double.always_fails
      Double.server_config {| asyncSettlement := None |} Double.thrown_text
      Double.type_error "add" "Add two numbers" (JNum 1)
      Double.answering_tool (JObj []) Double.unpaid_extra Double.world0
    = (Returns (PaidMcp.AnswerObject rejection), Double.world0)
    /\ PaidMcp.isError rejection = Some true.
Proof.
  destruct (paidTool_requires_payment Double.tool_externals Double.always_fails
              Double.server_config {| asyncSettlement := None |}
              Double.thrown_text Double.type_error
              "add" "Add two numbers" (JNum 1)
              Double.answering_tool (JObj []) Double.unpaid_extra
              Double.tool_requirement Double.world0 eq_refl eq_refl)
    as (rejection & Hrun & Herror & _).
  exists rejection. split; [apply Hrun | exact Herror].
Defined.

(** X22. A tool call whose proof fails verification is answered with an
    error-flagged result that carries the verification failure; nothing
    is done after the verification, and the answer is the same whatever
    the tool's callback is: the callback is not run. *)
Theorem paidTool_verification_failure
    (X : Externals) (F : Facilitator) (config : PaymentServerConfig)
    (opts : PaymentProcessorOptions) (String_of : thrown -> string)
    (TypeError_of : PaidMcp.primitive -> thrown)
    (name description : string) (price : js_value)
    (cb : js_value -> PaidMcp.ToolExtra -> js_result PaidMcp.ToolAnswer)
    (args : js_value) (extra : PaidMcp.ToolExtra)
    (requirement : PaymentRequirements) (w w' : World)
    (token : string) (failure : PaymentFailure) :
  createPaymentRequirements X config PaidMcp.virtual_request
    (PriceNumber price) (Some ("mcp://tool/" +:+ name))
    (Some (PaidMcp.tool_config description))
    = Returns (inl requirement) ->
  PaidMcp.extra_payment extra = Some token ->
  token <> "" ->
  verifyPayment X F token requirement w = (Returns (PaymentFailed failure), w') ->
  exists rejection,
    (forall cb',
       PaidMcp.cbWithPayment X F config opts String_of TypeError_of name
         description price cb' args extra w
       = (Returns (PaidMcp.AnswerObject rejection), w'))
    /\ PaidMcp.isError rejection = Some true
    /\ PaidMcp.structuredContent rejection
       = Some (PaidMcp.failure_object failure).
Proof.
  intros Hbuilt Hpayment Htoken Hverify. eexists. split.
  - intros cb'.
    by rewrite (cbWithPayment_verified X F config opts String_of TypeError_of
                  name description price cb' args extra requirement Hbuilt
                  w w' token _ Hpayment Htoken Hverify).
  - split; reflexivity.
Qed.

Lemma paidTool_verification_failure_witness :
  exists rejection,
    fst (PaidMcp.cbWithPayment Double.tool_externals Double.rejects_all
           Double.server_config {| asyncSettlement := None |}
           Double.thrown_text Double.type_error
           "add" "Add two numbers" (JNum 1)
           Double.answering_tool (JObj []) Double.paid_extra Double.world0)
    = Returns (PaidMcp.AnswerObject rejection)
    /\ PaidMcp.isError rejection = Some true.
Proof.
  destruct (paidTool_verification_failure Double.tool_externals
              Double.rejects_all Double.server_config
              {| asyncSettlement := None |} Double.thrown_text
              Double.type_error
              "add" "Add two numbers" (JNum 1) Double.answering_tool (JObj [])
              Double.paid_extra Double.tool_requirement Double.world0
              (extend Double.world0
                 [EvVerify Double.forced_payload Double.tool_requirement])
              "token-v2"
              {| pf_error :=
                   {| code := "VERIFICATION_FAILED";
                      message := "insufficient_funds";
                      details := Some [("payer", JStr "0x1234")] |};
                 pf_requirements := Some [Double.tool_requirement] |}
              eq_refl eq_refl ltac:(discriminate) eq_refl)
    as (rejection & Hrun & Herror & _).
  exists rejection. split; [by rewrite Hrun | exact Herror].
Defined.

(** X23. When the tool's callback throws, or answers with a result whose
    [isError] is true, the call is answered with an error-flagged result
    (the callback's own, or [Tool execution failed: ...] for a throw) and
    no settlement is started: a failed tool call is not billed. *)
Theorem paidTool_failed_tool_not_billed
    (X : Externals) (F : Facilitator) (config : PaymentServerConfig)
    (opts : PaymentProcessorOptions) (String_of : thrown -> string)
    (TypeError_of : PaidMcp.primitive -> thrown)
    (name description : string) (price : js_value)
    (cb : js_value -> PaidMcp.ToolExtra -> js_result PaidMcp.ToolAnswer)
    (args : js_value) (extra : PaidMcp.ToolExtra)
    (requirement : PaymentRequirements) (w w' : World)
    (token : string) (context : PaymentContext) :
  createPaymentRequirements X config PaidMcp.virtual_request
    (PriceNumber price) (Some ("mcp://tool/" +:+ name))
    (Some (PaidMcp.tool_config description))
    = Returns (inl requirement) ->
  PaidMcp.extra_payment extra = Some token ->
  token <> "" ->
  verifyPayment X F token requirement w
    = (Returns (PaymentSuccess context), w') ->
  match cb args extra with
  | Returns (PaidMcp.AnswerObject answer) =>
      PaidMcp.isError answer = Some true
  | Returns (PaidMcp.AnswerPrimitive _) => False
  | Throws _ => True
  end ->
  exists answer,
    PaidMcp.cbWithPayment X F config opts String_of TypeError_of name
      description price cb args extra w
    = (Returns (PaidMcp.AnswerObject answer), w')
    /\ PaidMcp.isError answer = Some true
    /\ match cb args extra with
       | Returns answer' => PaidMcp.AnswerObject answer = answer'
       | Throws e =>
           PaidMcp.content answer
           = [PaidMcp.text_content
                ("Tool execution failed: " +:+ String_of e)]
       end.
Proof.
  intros Hbuilt Hpayment Htoken Hverify Hfailed.
  rewrite (cbWithPayment_verified X F config opts String_of TypeError_of name
             description price cb args extra requirement Hbuilt w w' token _
             Hpayment Htoken Hverify).
  unfold PaidMcp.run_tool.
  destruct (cb args extra) as [[answer | p] | e]; [| done |].
  - rewrite Hfailed. simpl. by exists answer.
  - simpl. eexists. split; [reflexivity |]. split; reflexivity.
Qed.

Lemma paidTool_failed_tool_not_billed_witness :
  exists answer,
    PaidMcp.cbWithPayment Double.tool_externals (Double.fails_first 0)
      Double.server_config {| asyncSettlement := None |} Double.thrown_text
      Double.type_error "add" "Add two numbers" (JNum 1)
      Double.throwing_tool (JObj []) Double.paid_extra Double.world0
    = (Returns (PaidMcp.AnswerObject answer),
       extend Double.world0
         [EvVerify Double.forced_payload Double.tool_requirement])
    /\ PaidMcp.content answer
       = [PaidMcp.text_content "Tool execution failed: Error: division by zero"].
Proof.
  destruct (paidTool_failed_tool_not_billed Double.tool_externals
              (Double.fails_first 0) Double.server_config
              {| asyncSettlement := None |} Double.thrown_text
              Double.type_error
              "add" "Add two numbers" (JNum 1) Double.throwing_tool (JObj [])
              Double.paid_extra Double.tool_requirement Double.world0
              (extend Double.world0
                 [EvVerify Double.forced_payload Double.tool_requirement])
              "token-v2" Double.tool_context
              eq_refl eq_refl ltac:(discriminate) eq_refl I)
    as (answer & Hrun & _ & Hcontent).
  by exists answer.
Defined.

(** X24. After a tool call that succeeded, in synchronous mode, one
    settlement attempt is made.  When it succeeds, the tool's answer is
    returned with [x402/payment-response] set in its metadata and
    everything else, other metadata included, as the tool gave it; when
    it fails, the tool's answer is returned as it was, neither marked nor
    error-flagged. *)
Theorem paidTool_synchronous_settlement
    (X : Externals) (F : Facilitator) (config : PaymentServerConfig)
    (opts : PaymentProcessorOptions) (String_of : thrown -> string)
    (TypeError_of : PaidMcp.primitive -> thrown)
    (name description : string) (price : js_value)
    (cb : js_value -> PaidMcp.ToolExtra -> js_result PaidMcp.ToolAnswer)
    (args : js_value) (extra : PaidMcp.ToolExtra)
    (requirement : PaymentRequirements) (w w' : World)
    (token : string) (context : PaymentContext) (answer : PaidMcp.ToolResult) :
  createPaymentRequirements X config PaidMcp.virtual_request
    (PriceNumber price) (Some ("mcp://tool/" +:+ name))
    (Some (PaidMcp.tool_config description))
    = Returns (inl requirement) ->
  PaidMcp.extra_payment extra = Some token ->
  token <> "" ->
  verifyPayment X F token requirement w
    = (Returns (PaymentSuccess context), w') ->
  cb args extra = Returns (PaidMcp.AnswerObject answer) ->
  nullish (PaidMcp.isError answer) false = false ->
  async_enabled (asyncSettlement opts) = false ->
  let result := attempt_result F context w' 1 in
  exists answer',
    PaidMcp.cbWithPayment X F config opts String_of TypeError_of name
      description price cb args extra w
    = (Returns (PaidMcp.AnswerObject answer'),
       extend w' [settle_event context])
    /\ PaidMcp.isError answer' = PaidMcp.isError answer
    /\ PaidMcp.content answer' = PaidMcp.content answer
    /\ PaidMcp.structuredContent answer' = PaidMcp.structuredContent answer
    /\ (success result = false -> answer' = answer)
    /\ (success result = true ->
        forall k,
          obj_get k (nullish (PaidMcp.meta answer') [])
          = if String.eqb "x402/payment-response" k then
              Some (JObj [("success", JBool true);
                          ("transaction", opt_str (transaction result));
                          ("network", opt_str (sr_network result));
                          ("payer", opt_str (payer result))])
            else obj_get k (nullish (PaidMcp.meta answer) [])).
Proof.
  intros Hbuilt Hpayment Htoken Hverify Hanswer Hok Hsync result.
  rewrite (cbWithPayment_verified X F config opts String_of TypeError_of name
             description price cb args extra requirement Hbuilt w w' token _
             Hpayment Htoken Hverify).
  unfold PaidMcp.run_tool. rewrite Hanswer, Hok, Hsync. simpl. fold result.
  eexists. split; [reflexivity |].
  destruct (success result); simpl.
  - repeat split; try done. intros _ k. apply obj_get_set_meta.
  - by repeat split.
Qed.

Lemma paidTool_synchronous_settlement_witness :
  exists answer',
    fst (PaidMcp.cbWithPayment Double.tool_externals (Double.fails_first 0)
           Double.server_config {| asyncSettlement := None |}
           Double.thrown_text Double.type_error
           "add" "Add two numbers" (JNum 1)
           Double.answering_tool (JObj []) Double.paid_extra Double.world0)
    = Returns (PaidMcp.AnswerObject answer')
    /\ obj_get "trace" (nullish (PaidMcp.meta answer') []) = Some (JStr "t-1")
    /\ obj_get "x402/payment-response" (nullish (PaidMcp.meta answer') [])
       = Some (JObj [("success", JBool true);
                     ("transaction", JStr "0xabc");
                     ("network", JStr "base");
                     ("payer", JStr "0x1234")]).
Proof.
  destruct (paidTool_synchronous_settlement Double.tool_externals
              (Double.fails_first 0) Double.server_config
              {| asyncSettlement := None |} Double.thrown_text
              Double.type_error
              "add" "Add two numbers" (JNum 1) Double.answering_tool (JObj [])
              Double.paid_extra Double.tool_requirement Double.world0
              (extend Double.world0
                 [EvVerify Double.forced_payload Double.tool_requirement])
              "token-v2" Double.tool_context Double.answer
              eq_refl eq_refl ltac:(discriminate) eq_refl eq_refl eq_refl
              eq_refl)
    as (answer' & Hrun & _ & _ & _ & _ & Hmeta).
  exists answer'. split; [by rewrite Hrun |].
  split; [exact (Hmeta eq_refl "trace") |].
  exact (Hmeta eq_refl "x402/payment-response").
Defined.

(** X25. After a tool call that succeeded, in asynchronous mode, the
    tool's answer is returned with [x402/payment-status] set to
    [pending_settlement] in its metadata and everything else as the tool
    gave it, and what is done is what the background task does: the
    outcome of the settlement is not in the answer. *)
Theorem paidTool_asynchronous_settlement
    (X : Externals) (F : Facilitator) (config : PaymentServerConfig)
    (opts : PaymentProcessorOptions) (String_of : thrown -> string)
    (TypeError_of : PaidMcp.primitive -> thrown)
    (name description : string) (price : js_value)
    (cb : js_value -> PaidMcp.ToolExtra -> js_result PaidMcp.ToolAnswer)
    (args : js_value) (extra : PaidMcp.ToolExtra)
    (requirement : PaymentRequirements) (w w' : World)
    (token : string) (context : PaymentContext) (answer : PaidMcp.ToolResult) :
  createPaymentRequirements X config PaidMcp.virtual_request
    (PriceNumber price) (Some ("mcp://tool/" +:+ name))
    (Some (PaidMcp.tool_config description))
    = Returns (inl requirement) ->
  PaidMcp.extra_payment extra = Some token ->
  token <> "" ->
  verifyPayment X F token requirement w
    = (Returns (PaymentSuccess context), w') ->
  cb args extra = Returns (PaidMcp.AnswerObject answer) ->
  nullish (PaidMcp.isError answer) false = false ->
  async_enabled (asyncSettlement opts) = true ->
  exists answer',
    PaidMcp.cbWithPayment X F config opts String_of TypeError_of name
      description price cb args extra w
    = (Returns (PaidMcp.AnswerObject answer'),
       snd (settlePaymentInBackground F opts context w'))
    /\ PaidMcp.isError answer' = PaidMcp.isError answer
    /\ PaidMcp.content answer' = PaidMcp.content answer
    /\ PaidMcp.structuredContent answer' = PaidMcp.structuredContent answer
    /\ forall k,
         obj_get k (nullish (PaidMcp.meta answer') [])
         = if String.eqb "x402/payment-status" k
           then Some (JStr "pending_settlement")
           else obj_get k (nullish (PaidMcp.meta answer) []).
Proof.
  intros Hbuilt Hpayment Htoken Hverify Hanswer Hok Hasync.
  rewrite (cbWithPayment_verified X F config opts String_of TypeError_of name
             description price cb args extra requirement Hbuilt w w' token _
             Hpayment Htoken Hverify).
  unfold PaidMcp.run_tool. rewrite Hanswer, Hok, Hasync. simpl.
  eexists. split; [reflexivity |].
  repeat split; try done. intros k. apply obj_get_set_meta.
Qed.

Lemma paidTool_asynchronous_settlement_witness :
  exists answer',
    fst (PaidMcp.cbWithPayment Double.tool_externals Double.always_fails
           Double.server_config
           {| asyncSettlement := Some (Double.async_options (Some 3)) |}
           Double.thrown_text Double.type_error
           "add" "Add two numbers" (JNum 1)
           Double.answering_tool (JObj []) Double.paid_extra Double.world0)
    = Returns (PaidMcp.AnswerObject answer')
    /\ obj_get "x402/payment-status" (nullish (PaidMcp.meta answer') [])
       = Some (JStr "pending_settlement").
Proof.
  destruct (paidTool_asynchronous_settlement Double.tool_externals
              Double.always_fails Double.server_config
              {| asyncSettlement := Some (Double.async_options (Some 3)) |}
              Double.thrown_text Double.type_error
              "add" "Add two numbers" (JNum 1) Double.answering_tool (JObj [])
              Double.paid_extra Double.tool_requirement Double.world0
              (extend Double.world0
                 [EvVerify Double.forced_payload Double.tool_requirement])
              "token-v2" Double.tool_context Double.answer
              eq_refl eq_refl ltac:(discriminate) eq_refl eq_refl eq_refl
              eq_refl)
    as (answer' & Hrun & _ & _ & _ & Hmeta).
  exists answer'. split; [by rewrite Hrun |].
  exact (Hmeta "x402/payment-status").
Defined.

(** [verifyPayment] returns, after at most one [verify] call and no
    [settle] call. *)
Lemma verifyPayment_returns
    (X : Externals) (F : Facilitator) (token : string)
    (reqs : PaymentRequirements) (w : World) :
  exists result evs,
    verifyPayment X F token reqs w = (Returns result, extend w evs)
    /\ (count is_verify evs <= 1)%nat
    /\ count is_settle evs = 0%nat.
Proof.
  unfold verifyPayment.
  destruct (decodePayment X token) as [decoded | e].
  2: { eexists _, []. rewrite extend_nil, !count_nil.
       split; [reflexivity |]. split; [lia | done]. }
  destruct (findMatchingPaymentRequirements X [reqs] _) as [sel |].
  2: { eexists _, []. rewrite extend_nil, !count_nil.
       split; [reflexivity |]. split; [lia | done]. }
  unfold try_catch, mbind, M_bind, bind, facilitator_verify.
  rewrite emit_extend.
  destruct (verify F _ _ _) as [v | e]; [destruct (isValid v) |]; simpl.
  all: eexists _, _; split; [reflexivity |].
  all: rewrite !count_cons, !count_nil; simpl; split; [lia | done].
Qed.

(** X26. What a paid tool call gives, case by case, for every callback:
    one that answers with a result object, one that answers with a value
    that is not an object, and one that throws.

    The call throws in two cases only.  Either building the requirement
    threw, and then nothing was done.  Or, in asynchronous mode, the proof
    was verified and the callback answered with a value that is not an
    object: the call then throws the [TypeError] of that value, right
    after the verification, and no settlement is started.

    Otherwise the call answers, after at most one facilitator [verify]
    call.  Where the facilitator's [settle] was called, the callback did
    not throw; the answer to a callback's result object is a result
    object that is not error-flagged; and the answer to a callback's
    value that is not an object is that value, or, the value being
    truthy, the error-flagged [Settlement failed] result that carries its
    [TypeError]. *)
Theorem paidTool_outcomes
    (X : Externals) (F : Facilitator) (config : PaymentServerConfig)
    (opts : PaymentProcessorOptions) (String_of : thrown -> string)
    (TypeError_of : PaidMcp.primitive -> thrown)
    (name description : string) (price : js_value)
    (cb : js_value -> PaidMcp.ToolExtra -> js_result PaidMcp.ToolAnswer)
    (args : js_value) (extra : PaidMcp.ToolExtra) (w : World) :
  match PaidMcp.cbWithPayment X F config opts String_of TypeError_of name
          description price cb args extra w with
  | (Throws e, w') =>
      (w' = w
       /\ createPaymentRequirements X config PaidMcp.virtual_request
            (PriceNumber price) (Some ("mcp://tool/" +:+ name))
            (Some (PaidMcp.tool_config description))
          = Throws e)
      \/ (exists requirement token context p,
            createPaymentRequirements X config PaidMcp.virtual_request
              (PriceNumber price) (Some ("mcp://tool/" +:+ name))
              (Some (PaidMcp.tool_config description))
            = Returns (inl requirement)
            /\ PaidMcp.extra_payment extra = Some token
            /\ verifyPayment X F token requirement w
               = (Returns (PaymentSuccess context), w')
            /\ cb args extra = Returns (PaidMcp.AnswerPrimitive p)
            /\ async_enabled (asyncSettlement opts) = true
            /\ e = TypeError_of p)
  | (Returns answer, w') =>
      exists evs,
        w' = extend w evs
        /\ (count is_verify evs <= 1)%nat
        /\ ((0 < count is_settle evs)%nat ->
            match cb args extra with
            | Returns (PaidMcp.AnswerObject _) =>
                exists answer',
                  answer = PaidMcp.AnswerObject answer'
                  /\ nullish (PaidMcp.isError answer') false = false
            | Returns (PaidMcp.AnswerPrimitive p) =>
                answer = PaidMcp.AnswerPrimitive p
                \/ (PaidMcp.truthy (PaidMcp.AnswerPrimitive p) = true
                    /\ exists requirement,
                         answer
                         = PaidMcp.AnswerObject
                             (PaidMcp.error_result X
                                (PaidMcp.rejection_object
                                   ("Settlement failed: "
                                    +:+ String_of (TypeError_of p))
                                   requirement)))
            | Throws _ => False
            end)
  end.
Proof.
  destruct (createPaymentRequirements X config PaidMcp.virtual_request
              (PriceNumber price) (Some ("mcp://tool/" +:+ name))
              (Some (PaidMcp.tool_config description)))
    as [[requirement | failure] | e] eqn:Hbuilt.
  2, 3: unfold PaidMcp.cbWithPayment; rewrite Hbuilt; simpl.
  2: { exists []. rewrite extend_nil, !count_nil. repeat split; try done; lia. }
  2: by left.
  destruct (falsy_string (PaidMcp.extra_payment extra)) eqn:Hfalsy.
  { rewrite (cbWithPayment_unpaid X F config opts String_of TypeError_of name
               description price cb args extra requirement Hbuilt w Hfalsy).
    exists []. rewrite extend_nil, !count_nil. repeat split; try done; lia. }
  destruct (PaidMcp.extra_payment extra) as [token |] eqn:Hpayment;
    [| discriminate].
  assert (Htoken : token <> "") by (by intros ->).
  destruct (verifyPayment_returns X F token requirement w)
    as (result & evs & Hverify & Hcount & Hsettle).
  rewrite (cbWithPayment_verified X F config opts String_of TypeError_of name
             description price cb args extra requirement Hbuilt w _ token
             result Hpayment Htoken Hverify).
  destruct result as [context | failure].
  2: { exists evs. rewrite Hsettle. repeat split; try done; lia. }
  unfold PaidMcp.run_tool.
  destruct (cb args extra) as [[answer | p] | e]; cbv beta iota.
  3: { exists evs. rewrite Hsettle. repeat split; try done; lia. }
  - destruct (nullish (PaidMcp.isError answer) false) eqn:Herror; simpl.
    { exists evs. rewrite Hsettle. repeat split; try done; lia. }
    destruct (async_enabled (asyncSettlement opts)).
    + destruct (settlePaymentInBackground_run_events F opts context
                  (extend w evs)) as (evs2 & -> & Hverify2).
      exists (evs ++ evs2). rewrite extend_extend, count_app, Hverify2.
      split; [done |]. split; [lia |]. intros _.
      eexists. split; [reflexivity |]. done.
    + exists (evs ++ [settle_event context]).
      rewrite extend_extend, count_app, count_cons, count_nil. simpl.
      split; [done |]. split; [lia |]. intros _.
      eexists. split; [reflexivity |]. by destruct (success _).
  - destruct (async_enabled (asyncSettlement opts)) eqn:Hasync.
    + right. by exists requirement, token, context, p.
    + exists (evs ++ [settle_event context]).
      rewrite extend_extend, count_app, count_cons, count_nil.
      split; [done |]. split; [simpl; lia |]. intros _.
      destruct (PaidMcp.truthy (PaidMcp.AnswerPrimitive p)) eqn:Htruthy;
        [| rewrite andb_false_r; by left].
      rewrite andb_true_r. destruct (success _); [| by left].
      right. split; [done |]. by exists requirement.
Qed.

(** X27. A tool call whose proof was verified and whose callback answers
    with a value that is not an object.  In asynchronous mode the call
    throws the [TypeError] of that value right after the verification:
    no settlement is started.  In synchronous mode one settlement attempt
    is made; the value is returned as it is when the attempt failed or
    the value is falsy, and when the attempt succeeded and the value is
    truthy the call is answered with the error-flagged
    [Settlement failed] result that carries the [TypeError], the payment
    being settled. *)
Theorem paidTool_non_object_answer
    (X : Externals) (F : Facilitator) (config : PaymentServerConfig)
    (opts : PaymentProcessorOptions) (String_of : thrown -> string)
    (TypeError_of : PaidMcp.primitive -> thrown)
    (name description : string) (price : js_value)
    (cb : js_value -> PaidMcp.ToolExtra -> js_result PaidMcp.ToolAnswer)
    (args : js_value) (extra : PaidMcp.ToolExtra)
    (requirement : PaymentRequirements) (w w' : World)
    (token : string) (context : PaymentContext) (p : PaidMcp.primitive) :
  createPaymentRequirements X config PaidMcp.virtual_request
    (PriceNumber price) (Some ("mcp://tool/" +:+ name))
    (Some (PaidMcp.tool_config description))
    = Returns (inl requirement) ->
  PaidMcp.extra_payment extra = Some token ->
  token <> "" ->
  verifyPayment X F token requirement w
    = (Returns (PaymentSuccess context), w') ->
  cb args extra = Returns (PaidMcp.AnswerPrimitive p) ->
  PaidMcp.cbWithPayment X F config opts String_of TypeError_of name
    description price cb args extra w
  = if async_enabled (asyncSettlement opts) then
      (Throws (TypeError_of p), w')
    else
      (Returns
         (if success (attempt_result F context w' 1)
             && PaidMcp.truthy (PaidMcp.AnswerPrimitive p)
          then
            PaidMcp.AnswerObject
              (PaidMcp.error_result X
                 (PaidMcp.rejection_object
                    ("Settlement failed: " +:+ String_of (TypeError_of p))
                    requirement))
          else PaidMcp.AnswerPrimitive p),
       extend w' [settle_event context]).
Proof.
  intros Hbuilt Hpayment Htoken Hverify Hanswer.
  rewrite (cbWithPayment_verified X F config opts String_of TypeError_of name
             description price cb args extra requirement Hbuilt w w' token _
             Hpayment Htoken Hverify).
  unfold PaidMcp.run_tool. by rewrite Hanswer.
Qed.

Lemma paidTool_non_object_answer_witness :
  PaidMcp.cbWithPayment Double.tool_externals Double.always_fails
    Double.server_config
    {| asyncSettlement := Some (Double.async_options (Some 3)) |}
    Double.thrown_text Double.type_error "add" "Add two numbers" (JNum 1)
    (Double.bare_tool PaidMcp.PUndefined) (JObj []) Double.paid_extra
    Double.world0
  = (Throws
       (ErrorObj "Cannot read properties of undefined (reading '_meta')"),
     extend Double.world0
       [EvVerify Double.forced_payload Double.tool_requirement])
  /\ PaidMcp.cbWithPayment Double.tool_externals (Double.fails_first 0)
       Double.server_config {| asyncSettlement := None |}
       Double.thrown_text Double.type_error "add" "Add two numbers" (JNum 1)
       (Double.bare_tool (PaidMcp.PString "3")) (JObj []) Double.paid_extra
       Double.world0
     = (Returns
          (PaidMcp.AnswerObject
             (PaidMcp.error_result Double.tool_externals
                (PaidMcp.rejection_object
                   "Settlement failed: Error: Cannot create property '_meta' on a primitive"
                   Double.tool_requirement))),
        extend
          (extend Double.world0
             [EvVerify Double.forced_payload Double.tool_requirement])
          [settle_event Double.tool_context]).
Proof.
  split.
  - exact (paidTool_non_object_answer Double.tool_externals
             Double.always_fails Double.server_config
             {| asyncSettlement := Some (Double.async_options (Some 3)) |}
             Double.thrown_text Double.type_error
             "add" "Add two numbers" (JNum 1)
             (Double.bare_tool PaidMcp.PUndefined) (JObj [])
             Double.paid_extra Double.tool_requirement Double.world0
             (extend Double.world0
                [EvVerify Double.forced_payload Double.tool_requirement])
             "token-v2" Double.tool_context PaidMcp.PUndefined
             eq_refl eq_refl ltac:(discriminate) eq_refl eq_refl).
  - exact (paidTool_non_object_answer Double.tool_externals
             (Double.fails_first 0) Double.server_config
             {| asyncSettlement := None |}
             Double.thrown_text Double.type_error
             "add" "Add two numbers" (JNum 1)
             (Double.bare_tool (PaidMcp.PString "3")) (JObj [])
             Double.paid_extra Double.tool_requirement Double.world0
             (extend Double.world0
                [EvVerify Double.forced_payload Double.tool_requirement])
             "token-v2" Double.tool_context (PaidMcp.PString "3")
             eq_refl eq_refl ltac:(discriminate) eq_refl eq_refl).
Defined.
